(** * d6r: the resource gateway of [app/kube_client.py]

    A shallow embedding of [KubeClient]: the registry of resource kinds,
    the normalisation of a requested kind, and the three gateway
    operations [get_resources], [describe_resource] and [get_pod_logs].

    Python code that can raise and that talks to the cluster is written
    in a small monad [Py]: a computation yields the list of effects it
    performed (lines printed, backend methods invoked) and either an
    exception or a value.  The kubernetes client library is external; it
    is a [Backend] argument of every operation. *)

From Stdlib Require Import String Ascii ZArith.
From stdpp Require Import base option list strings pretty gmap.

Local Open Scope string_scope.
Local Open Scope list_scope.
Local Open Scope stdpp_scope.
Set Warnings "-register-all".

(** ** Python values and exceptions *)

(** The values that cross the boundary with the kubernetes client: plain
    serialisable data, and instances of the client's model classes
    ([V1Pod], [V1PodList], ...), given by class name and attributes. *)
Inductive PyVal : Type :=
| PyNone
| PyBool (b : bool)
| PyInt (z : Z)
| PyStr (s : string)
| PyList (l : list PyVal)
| PyDict (d : list (string * PyVal))
| PyModel (cls : string) (attrs : list (string * PyVal)).

(** Keyword arguments of a call, in the order they are written. *)
Definition kwargs : Type := list (string * PyVal).

(** Exceptions.  Everything the modelled code can meet derives from
    [Exception]; [except AttributeError] tells one class apart. *)
Inductive ExcClass : Type := AttributeError | TypeError | OtherException.

Record Exc : Type := { exc_class : ExcClass; exc_str : string }.

Definition is_AttributeError (e : Exc) : bool :=
  match exc_class e with AttributeError => true | _ => false end.

(** The objects created at connection time. *)
Inductive ApiObject : Type :=
| ApiClient | CoreV1Api | AppsV1Api | NetworkingV1Api | EventsV1Api.

Definition class_name (o : ApiObject) : string :=
  match o with
  | ApiClient => "ApiClient"
  | CoreV1Api => "CoreV1Api"
  | AppsV1Api => "AppsV1Api"
  | NetworkingV1Api => "NetworkingV1Api"
  | EventsV1Api => "EventsV1Api"
  end.

(** ** The kubernetes client, as the code sees it

    [methods o name] is the bound method [getattr(o, name)], absent when
    the class has no such attribute; applied to keyword arguments it
    returns or raises.  [sanitize_for_serialization] is the method of
    that name of [ApiClient]. *)
Record Backend : Type := {
  methods : ApiObject → string → option (kwargs → Exc + PyVal);
  sanitize_for_serialization : PyVal → Exc + PyVal
}.

(** ** Effects *)

Inductive Event : Type :=
| Print (line : string)
| Invoke (o : ApiObject) (method : string) (kw : kwargs).

Definition Py (A : Type) : Type := list Event * (Exc + A).

#[export] Instance Py_ret : MRet Py := λ A a, ([], inr a).

#[export] Instance Py_bind : MBind Py := λ A B f m,
  match m with
  | (t, inl e) => (t, inl e)
  | (t, inr a) => let '(t', r) := f a in (t ++ t', r)
  end.

Definition raise {A : Type} (e : Exc) : Py A := ([], inl e).

Definition print (line : string) : Py unit := ([Print line], inr tt).

(** A call that returns or raises, without further effect. *)
Definition lift {A : Type} (r : Exc + A) : Py A := ([], r).

(** [try: body  except Exception as e: handler e] *)
Definition try_except {A : Type} (body : Py A) (handler : Exc → Py A) : Py A :=
  match body with
  | (t, inl e) => let '(t', r) := handler e in (t ++ t', r)
  | (t, inr a) => (t, inr a)
  end.

(** [try: body  except AttributeError: handler] *)
Definition try_except_AttributeError {A : Type} (body : Py A) (handler : Py A) : Py A :=
  match body with
  | (t, inl e) =>
      if is_AttributeError e then let '(t', r) := handler in (t ++ t', r)
      else (t, inl e)
  | (t, inr a) => (t, inr a)
  end.

Definition trace {A : Type} (m : Py A) : list Event := fst m.
Definition outcome {A : Type} (m : Py A) : Exc + A := snd m.

(** The backend methods a computation invoked, in order. *)
Fixpoint invocations (t : list Event) : list (ApiObject * string * kwargs) :=
  match t with
  | [] => []
  | Print _ :: t' => invocations t'
  | Invoke o m kw :: t' => (o, m, kw) :: invocations t'
  end.

(** ** Strings *)

Definition lower_ascii (c : ascii) : ascii :=
  let n := nat_of_ascii c in
  if (65 <=? n)%nat && (n <=? 90)%nat then ascii_of_nat (n + 32) else c.

(** [s.lower()].  Strings are sequences of 8-bit characters here and
    only the ASCII letters have a lower case; the keys of the registry
    are ASCII. *)
Fixpoint lower (s : string) : string :=
  match s with
  | EmptyString => EmptyString
  | String c s' => String (lower_ascii c) (lower s')
  end.

(** [s.endswith(suffix)] *)
Definition endswith (s suffix : string) : bool :=
  let n := String.length s in
  let k := String.length suffix in
  (k <=? n)%nat && String.eqb (substring (n - k) k s) suffix.

(** [s[:-1]] *)
Definition drop_last (s : string) : string :=
  substring 0 (String.length s - 1) s.

(** Truth value of a string and of an optional string. *)
Definition truthy (s : string) : bool := negb (String.eqb s "").

Definition truthy_opt (s : option string) : bool :=
  match s with Some s => truthy s | None => false end.

(** [f"{x}"] of an optional string. *)
Definition str_opt (s : option string) : string :=
  match s with Some s => s | None => "None" end.

(** The same value as a keyword argument. *)
Definition py_opt (s : option string) : PyVal :=
  match s with Some s => PyStr s | None => PyNone end.

(** ** Attribute access and calls *)

Definition attribute_error (cls name : string) : Exc :=
  {| exc_class := AttributeError;
     exc_str := "'" +:+ cls +:+ "' object has no attribute '" +:+ name +:+ "'" |}.

Definition type_error (msg : string) : Exc :=
  {| exc_class := TypeError; exc_str := msg |}.

(** [getattr(o, name)] on an object of the kubernetes client. *)
Definition getattr (B : Backend) (o : ApiObject) (name : string)
  : Py (kwargs → Exc + PyVal) :=
  match methods B o name with
  | Some f => mret f
  | None => raise (attribute_error (class_name o) name)
  end.

(** Calling the bound method [f = getattr(o, name)]: the call is
    recorded, then returns or raises as the backend decides. *)
Definition call (o : ApiObject) (name : string) (f : kwargs → Exc + PyVal)
  (kw : kwargs) : Py PyVal :=
  ([Invoke o name kw], f kw).

Definition type_name (v : PyVal) : string :=
  match v with
  | PyNone => "NoneType"
  | PyBool _ => "bool"
  | PyInt _ => "int"
  | PyStr _ => "str"
  | PyList _ => "list"
  | PyDict _ => "dict"
  | PyModel cls _ => cls
  end.

Fixpoint lookup_attr (name : string) (attrs : list (string * PyVal)) : option PyVal :=
  match attrs with
  | [] => None
  | (k, v) :: rest => if String.eqb k name then Some v else lookup_attr name rest
  end.

Fixpoint chars (s : string) : list PyVal :=
  match s with
  | EmptyString => []
  | String c s' => PyStr (String c EmptyString) :: chars s'
  end.

(** The elements [for item in v] goes through. *)
Definition py_iter (v : PyVal) : Py (list PyVal) :=
  match v with
  | PyList l => mret l
  | PyStr s => mret (chars s)
  | PyDict d => mret (map (λ kv, PyStr (fst kv)) d)
  | _ => raise (type_error ("'" +:+ type_name v +:+ "' object is not iterable"))
  end.

(** The elements of [for item in result.items]: the attribute of a
    model object; on a dict [items] is the built-in method, which is not
    iterable; the other values have no such attribute. *)
Definition py_items (result : PyVal) : Py (list PyVal) :=
  match result with
  | PyModel cls attrs =>
      match lookup_attr "items" attrs with
      | Some v => py_iter v
      | None => raise (attribute_error cls "items")
      end
  | PyDict _ =>
      raise (type_error "'builtin_function_or_method' object is not iterable")
  | _ => raise (attribute_error (type_name result) "items")
  end.

(** ** class KubeClient *)

(** The instance attributes; [None] is an attribute that was never
    assigned. *)
Record KubeClient : Type := {
  api_client : option ApiObject;
  core_v1_api : option ApiObject;
  apps_v1_api : option ApiObject;
  ingress_v1_api : option ApiObject;
  networking_v1_api : option ApiObject;
  events_1_api : option ApiObject
}.

(** [self.name] *)
Definition self_attr (name : string) (field : option ApiObject) : Py ApiObject :=
  match field with
  | Some o => mret o
  | None => raise (attribute_error "KubeClient" name)
  end.

(** The object before [__init__] has run. *)
Definition fresh : KubeClient :=
  {| api_client := None; core_v1_api := None; apps_v1_api := None;
     ingress_v1_api := None; networking_v1_api := None; events_1_api := None |}.

(** [__init__]; [load_kube_config] is what [config.load_kube_config()]
    does when it is called. *)
Definition __init__ (load_kube_config : Exc + unit) (self : KubeClient)
  : Py KubeClient :=
  try_except
    (lift load_kube_config;;
     mret {| api_client := Some ApiClient;
             core_v1_api := Some CoreV1Api;
             apps_v1_api := Some AppsV1Api;
             ingress_v1_api := Some NetworkingV1Api;
             networking_v1_api := networking_v1_api self;
             events_1_api := Some EventsV1Api |})
    (λ e, print ("Warning: Failed to connect to Kubernetes cluster: " +:+ exc_str e);;
          mret self).

(** [aconnect]: the same start again, which assigns
    [networking_v1_api] where [__init__] assigns [ingress_v1_api]. *)
Definition aconnect (load_kube_config : Exc + unit) (self : KubeClient)
  : Py KubeClient :=
  try_except
    (lift load_kube_config;;
     mret {| api_client := Some ApiClient;
             core_v1_api := Some CoreV1Api;
             apps_v1_api := Some AppsV1Api;
             ingress_v1_api := ingress_v1_api self;
             networking_v1_api := Some NetworkingV1Api;
             events_1_api := Some EventsV1Api |})
    (λ e, print ("Warning: Failed to connect to Kubernetes cluster: " +:+ exc_str e);;
          mret self).

(** [await KubeClient().aconnect()], as [app_lifespan] of [main.py]
    builds the client; the configuration is loaded twice. *)
Definition app_lifespan (load1 load2 : Exc + unit) : Py KubeClient :=
  print "Initializing Kubernetes client...";;
  self ← __init__ load1 fresh;
  aconnect load2 self.

(** The dict literal of [_get_resource_mapping], for the four API
    objects its entries refer to. *)
Definition resource_table (core apps networking events : ApiObject)
  : gmap string (ApiObject * string) :=
  list_to_map [
    ("pod", (core, "pod"));
    ("service", (core, "service"));
    ("configmap", (core, "config_map"));
    ("secret", (core, "secret"));
    ("namespace", (core, "namespace"));
    ("persistentvolumeclaim", (core, "persistent_volume_claim"));
    ("persistentvolume", (core, "persistent_volume"));
    ("serviceaccount", (core, "service_account"));
    ("node", (core, "node"));
    ("deployment", (apps, "deployment"));
    ("replicaset", (apps, "replica_set"));
    ("statefulset", (apps, "stateful_set"));
    ("daemonset", (apps, "daemon_set"));
    ("ingress", (networking, "ingress"));
    ("ingressclass", (networking, "ingress_class"));
    ("networkpolicy", (networking, "network_policy"));
    ("event", (events, "event"))
  ].

(** The registry of resource kinds.  Building the dict reads the four
    attributes of [self], in the order of the entries. *)
Definition _get_resource_mapping (self : KubeClient)
  : Py (gmap string (ApiObject * string)) :=
  core ← self_attr "core_v1_api" (core_v1_api self);
  apps ← self_attr "apps_v1_api" (apps_v1_api self);
  networking ← self_attr "networking_v1_api" (networking_v1_api self);
  events ← self_attr "events_1_api" (events_1_api self);
  mret (resource_table core apps networking events).

(** [kind in resources] *)
Definition py_in (kind : string) (resources : gmap string (ApiObject * string)) : bool :=
  match resources !! kind with Some _ => true | None => false end.

Definition _normalize_resource_kind (self : KubeClient) (resource_kind : string)
  : Py string :=
  let resource_kind := lower resource_kind in
  resources ← _get_resource_mapping self;
  if endswith resource_kind "s" && negb (py_in resource_kind resources)
  then mret (drop_last resource_kind)
  else mret resource_kind.

Definition _get_api_client_and_resource_type (self : KubeClient) (resource_kind : string)
  : Py (option ApiObject * option string) :=
  resource_kind ← _normalize_resource_kind self resource_kind;
  resources ← _get_resource_mapping self;
  match resources !! resource_kind with
  | None => mret (None, None)
  | Some (api_client, resource_type) => mret (Some api_client, Some resource_type)
  end.

(** [self.api_client.sanitize_for_serialization(v)] *)
Definition sanitize (B : Backend) (self : KubeClient) (v : PyVal) : Py PyVal :=
  o ← self_attr "api_client" (api_client self);
  match o with
  | ApiClient => lift (sanitize_for_serialization B v)
  | _ => raise (attribute_error (class_name o) "sanitize_for_serialization")
  end.

(** The loop of [get_resources] that fills [serializable_items]. *)
Fixpoint serialize_items (B : Backend) (self : KubeClient) (items : list PyVal)
  (serializable_items : list PyVal) : Py (list PyVal) :=
  match items with
  | [] => mret serializable_items
  | item :: rest =>
      item_dict ← sanitize B self item;
      serialize_items B self rest (serializable_items ++ [item_dict])
  end.

(** The choice of the list method in [get_resources] (the [if] at the
    head of its [try] block) and the call. *)
Definition dispatch_list (B : Backend) (api_client : ApiObject)
  (resource_kind resource_type : string) (namespace : option string) : Py PyVal :=
  if truthy_opt namespace && negb (String.eqb resource_kind "namespace")
  then
    let method_name := "list_namespaced_" +:+ resource_type in
    f ← getattr B api_client method_name;
    call api_client method_name f [("namespace", py_opt namespace)]
  else
    try_except_AttributeError
      (let method_name := "list_" +:+ resource_type +:+ "_for_all_namespaces" in
       f ← getattr B api_client method_name;
       call api_client method_name f [])
      (let method_name := "list_" +:+ resource_type in
       f ← getattr B api_client method_name;
       call api_client method_name f []).

(** [get_resources(resource_kind, namespace=None)].  The test
    [not api_client or not resource_type] passes on [None] and on an
    empty resource type. *)
Definition get_resources (B : Backend) (self : KubeClient) (resource_kind : string)
  (namespace : option string) : Py PyVal :=
  resource_kind ← _normalize_resource_kind self resource_kind;
  '(api_client, resource_type) ← _get_api_client_and_resource_type self resource_kind;
  match api_client, resource_type with
  | Some api_client, Some resource_type =>
      if negb (truthy resource_type) then mret (PyList []) else
      print ("Getting " +:+ resource_kind +:+ " from " +:+
             (if truthy_opt namespace then str_opt namespace else "all namespaces"));;
      try_except
        (result ← dispatch_list B api_client resource_kind resource_type namespace;
         items ← py_items result;
         serializable_items ← serialize_items B self items [];
         mret (PyList serializable_items))
        (λ e, print ("Error getting " +:+ resource_kind +:+ ": " +:+ exc_str e);;
              mret (PyList []))
  | _, _ => mret (PyList [])
  end.

(** The dict [{"error": message}]. *)
Definition ErrorDocument (message : string) : PyVal :=
  PyDict [("error", PyStr message)].

(** The choice of the read method in [describe_resource] and the call. *)
Definition dispatch_read (B : Backend) (api_client : ApiObject)
  (resource_kind resource_type resource_name namespace : string) : Py PyVal :=
  if negb (String.eqb resource_kind "namespace")
  then
    let method_name := "read_namespaced_" +:+ resource_type in
    f ← getattr B api_client method_name;
    call api_client method_name f
      [("name", PyStr resource_name); ("namespace", PyStr namespace)]
  else
    let method_name := "read_" +:+ resource_type in
    f ← getattr B api_client method_name;
    call api_client method_name f [("name", PyStr resource_name)].

(** [describe_resource(resource_kind, resource_name, namespace="default")] *)
Definition describe_resource (B : Backend) (self : KubeClient)
  (resource_kind resource_name namespace : string) : Py PyVal :=
  resource_kind ← _normalize_resource_kind self resource_kind;
  '(api_client, resource_type) ← _get_api_client_and_resource_type self resource_kind;
  match api_client, resource_type with
  | Some api_client, Some resource_type =>
      if negb (truthy resource_type)
      then mret (ErrorDocument ("Unsupported resource kind: " +:+ resource_kind)) else
      print ("Describing " +:+ resource_kind +:+ " " +:+ resource_name +:+
             " in namespace " +:+ namespace);;
      try_except
        (result ← dispatch_read B api_client resource_kind resource_type
                    resource_name namespace;
         resource_dict ← sanitize B self result;
         mret resource_dict)
        (λ e, print ("Error describing " +:+ resource_kind +:+ " " +:+ resource_name +:+
                     ": " +:+ exc_str e);;
              mret (ErrorDocument ("Failed to describe " +:+ resource_kind +:+ " " +:+
                                   resource_name +:+ ": " +:+ exc_str e)))
  | _, _ => mret (ErrorDocument ("Unsupported resource kind: " +:+ resource_kind))
  end.

(** The defaults of the signature of [get_pod_logs]. *)
Definition default_container : option string := None.
Definition default_namespace : string := "default".
Definition default_tail_lines : Z := 100.

(** The call [self.core_v1_api.read_namespaced_pod_log(...)] of
    [get_pod_logs]. *)
Definition read_pod_log (B : Backend) (self : KubeClient) (pod_name : string)
  (container : option string) (namespace : string) (tail_lines : Z) : Py PyVal :=
  core ← self_attr "core_v1_api" (core_v1_api self);
  f ← getattr B core "read_namespaced_pod_log";
  call core "read_namespaced_pod_log" f
    [("name", PyStr pod_name);
     ("namespace", PyStr namespace);
     ("container", py_opt container);
     ("pretty", PyBool true);
     ("tail_lines", PyInt tail_lines)].

(** [get_pod_logs(pod_name, container=None, namespace="default",
    tail_lines=100)]: the second definition of that name in the class,
    which replaces the first. *)
Definition get_pod_logs (B : Backend) (self : KubeClient) (pod_name : string)
  (container : option string) (namespace : string) (tail_lines : Z) : Py PyVal :=
  try_except
    (logs ← read_pod_log B self pod_name container namespace tail_lines;
     mret logs)
    (λ e, print ("Error getting logs for pod " +:+ pod_name +:+ ": " +:+ exc_str e);;
          mret (PyStr ("Failed to get logs: " +:+ exc_str e))).

(** ** Resolution in the words of the specification

    A second definition, written from section 4.1 of the specification
    and not from the code, to compare with
    [_get_api_client_and_resource_type]: lowercase the input; look it up;
    if it is absent and ends with an "s", strip exactly one trailing "s"
    and look up again; otherwise report that nothing was found. *)

Fixpoint has_trailing_s (s : string) : bool :=
  match s with
  | EmptyString => false
  | String c EmptyString => Ascii.eqb c "s"
  | String _ s' => has_trailing_s s'
  end.

Fixpoint strip_trailing_s (s : string) : string :=
  match s with
  | EmptyString => EmptyString
  | String c EmptyString => if Ascii.eqb c "s" then EmptyString else s
  | String c s' => String c (strip_trailing_s s')
  end.

Definition resolve_spec (table : gmap string (ApiObject * string)) (kind : string)
  : option (ApiObject * string) :=
  let k := lower kind in
  match table !! k with
  | Some descriptor => Some descriptor
  | None => if has_trailing_s k then table !! strip_trailing_s k else None
  end.

(** The kind resolves: the lookup returns a descriptor. *)
Definition resolves (self : KubeClient) (kind : string) : Prop :=
  ∃ api resource_type,
    _get_api_client_and_resource_type self kind = mret (Some api, Some resource_type).

(** ** A sample cluster

    A backend in the shape of the real client: pods have
    [list_namespaced_pod], [list_pod_for_all_namespaces],
    [read_namespaced_pod] and [read_namespaced_pod_log]; nodes,
    namespaces and persistent volumes have only [list_*] and [read_*]. *)
Module Sample.

Definition pod (name ns : string) : PyVal :=
  PyModel "V1Pod" [("kind", PyStr "Pod"); ("name", PyStr name); ("namespace", PyStr ns)].

Definition pods : list PyVal :=
  [pod "web-1" "team-a"; pod "web-2" "team-a"; pod "db-1" "team-b"].

Definition in_namespace (ns : string) (v : PyVal) : bool :=
  match v with
  | PyModel _ attrs =>
      match lookup_attr "namespace" attrs with
      | Some (PyStr n) => String.eqb n ns
      | _ => false
      end
  | _ => false
  end.

Definition not_found : Exc :=
  {| exc_class := OtherException; exc_str := "(404) Reason: Not Found" |}.

Definition named (name : string) (v : PyVal) : bool :=
  match v with
  | PyModel _ attrs =>
      match lookup_attr "name" attrs with
      | Some (PyStr n) => String.eqb n name
      | _ => false
      end
  | _ => false
  end.

Definition arg (name : string) (kw : kwargs) : string :=
  match lookup_attr name kw with Some (PyStr s) => s | _ => "" end.

Definition core (name : string) : option (kwargs → Exc + PyVal) :=
  if String.eqb name "list_namespaced_pod" then
    Some (λ kw, inr (PyModel "V1PodList"
                       [("items", PyList (filter (λ v, in_namespace (arg "namespace" kw) v = true) pods))]))
  else if String.eqb name "list_pod_for_all_namespaces" then
    Some (λ _, inr (PyModel "V1PodList" [("items", PyList pods)]))
  else if String.eqb name "read_namespaced_pod" then
    Some (λ kw,
      match filter (λ v, in_namespace (arg "namespace" kw) v = true ∧ named (arg "name" kw) v = true) pods with
      | p :: _ => inr p
      | [] => inl not_found
      end)
  else if String.eqb name "read_namespaced_pod_log" then
    Some (λ _, inr (PyStr "started"))
  else if String.eqb name "list_node" then
    Some (λ _, inr (PyModel "V1NodeList" [("items", PyList [PyModel "V1Node" [("name", PyStr "n1")]])]))
  else if String.eqb name "read_node" then
    Some (λ _, inr (PyModel "V1Node" [("name", PyStr "n1")]))
  else if String.eqb name "list_namespace" then
    Some (λ _, inr (PyModel "V1NamespaceList" [("items", PyList [])]))
  else if String.eqb name "read_namespace" then
    Some (λ kw, inr (PyModel "V1Namespace" [("name", PyStr (arg "name" kw))]))
  else if String.eqb name "list_persistent_volume" then
    Some (λ _, inr (PyModel "V1PersistentVolumeList" [("items", PyList [])]))
  else if String.eqb name "read_persistent_volume" then
    Some (λ _, inl not_found)
  else None.

(** Serialisation turns a model object into the dict of its attributes. *)
Definition to_dict (v : PyVal) : Exc + PyVal :=
  match v with
  | PyModel _ attrs => inr (PyDict attrs)
  | _ => inr v
  end.

Definition backend : Backend :=
  {| methods := λ o name, match o with CoreV1Api => core name | _ => None end;
     sanitize_for_serialization := to_dict |}.

(** What [config.load_kube_config()] raises without a configuration. *)
Definition refused : Exc :=
  {| exc_class := OtherException;
     exc_str := "Invalid kube-config file. No configuration found." |}.

(** The client after a start that reached the cluster. *)
Definition connected : KubeClient :=
  {| api_client := Some ApiClient; core_v1_api := Some CoreV1Api;
     apps_v1_api := Some AppsV1Api; ingress_v1_api := Some NetworkingV1Api;
     networking_v1_api := Some NetworkingV1Api; events_1_api := Some EventsV1Api |}.

End Sample.

(** ** The rest of the client: [get_resource_types] *)

(** [v.name], for a name that no built-in type defines ("resources",
    "kind"): the attribute of a model object, [AttributeError]
    otherwise. *)
Definition py_attr (v : PyVal) (name : string) : Py PyVal :=
  match v with
  | PyModel cls attrs =>
      match lookup_attr name attrs with
      | Some x => mret x
      | None => raise (attribute_error cls name)
      end
  | _ => raise (attribute_error (type_name v) name)
  end.

(** The comprehension [[resource.kind for resource in ...]]. *)
Fixpoint resource_kinds (resources : list PyVal) (kinds : list PyVal)
  : Py (list PyVal) :=
  match resources with
  | [] => mret kinds
  | resource :: rest =>
      kind ← py_attr resource "kind";
      resource_kinds rest (kinds ++ [kind])
  end.

(** [get_resource_types()] *)
Definition get_resource_types (B : Backend) (self : KubeClient) : Py PyVal :=
  try_except
    (core ← self_attr "core_v1_api" (core_v1_api self);
     f ← getattr B core "get_api_resources";
     resources ← call core "get_api_resources" f [];
     listed ← py_attr resources "resources";
     items ← py_iter listed;
     kinds ← resource_kinds items [];
     mret (PyList kinds))
    (λ e, print ("Error getting resource types: " +:+ exc_str e);;
          mret (PyList [])).

(** ** The tools of [main.py] *)

(** Truth value of a value ([not v] is its negation); an object of a
    model class is true. *)
Definition py_truthy (v : PyVal) : bool :=
  match v with
  | PyNone => false
  | PyBool b => b
  | PyInt z => negb (Z.eqb z 0)
  | PyStr s => truthy s
  | PyList l => match l with [] => false | _ => true end
  | PyDict d => match d with [] => false | _ => true end
  | PyModel _ _ => true
  end.

(** The strings [sep.join] puts together; an item that is not a string
    raises [TypeError], with its position. *)
Fixpoint join_items (i : nat) (items : list PyVal) : Exc + list string :=
  match items with
  | [] => inr []
  | PyStr s :: rest =>
      match join_items (S i) rest with
      | inr strs => inr (s :: strs)
      | inl e => inl e
      end
  | v :: _ =>
      inl (type_error ("sequence item " +:+ pretty i +:+ ": expected str instance, "
                       +:+ type_name v +:+ " found"))
  end.

(** [sep.join(v)] *)
Definition py_join (sep : string) (v : PyVal) : Py string :=
  items ← py_iter v;
  strs ← lift (join_items 0 items);
  mret (String.concat sep strs).

(** The four tools; [kubeClient] is
    [ctx.request_context.lifespan_context.kubeClient]. *)
Module Main.

(** [resource_types] *)
Definition get_resource_kinds (B : Backend) (kubeClient : KubeClient) : Py PyVal :=
  resource_types ← get_resource_types B kubeClient;
  joined ← py_join ", " resource_types;
  mret (PyStr ("Resource types: " +:+ joined)).

(** [get_resources(resource_kind, namespace="")] *)
Definition get_resources (B : Backend) (kubeClient : KubeClient)
  (resource_kind namespace : string) : Py PyVal :=
  resources ← get_resources B kubeClient resource_kind (Some namespace);
  if negb (py_truthy resources)
  then mret (PyStr ("No " +:+ resource_kind +:+ " resources found" +:+
                    (if truthy namespace then " in namespace " +:+ namespace else "")))
  else mret resources.

(** [describe_resource(resource_kind, resource_name, namespace="default")] *)
Definition describe_resource (B : Backend) (kubeClient : KubeClient)
  (resource_kind resource_name namespace : string) : Py PyVal :=
  resource_details ← describe_resource B kubeClient resource_kind resource_name namespace;
  mret resource_details.

(** [get_pod_logs(pod_name, namespace="default", tail_lines=100)]: the
    client is called without [container]. *)
Definition get_pod_logs (B : Backend) (kubeClient : KubeClient) (pod_name namespace : string)
  (tail_lines : Z) : Py PyVal :=
  get_pod_logs B kubeClient pod_name default_container namespace tail_lines.

End Main.

(** ** More sample clusters *)

Module Scenario.

(** The cluster cannot be reached: every call raises. *)
Definition unreachable : Exc :=
  {| exc_class := OtherException;
     exc_str := "HTTPSConnectionPool(host='10.0.0.1', port=6443): Max retries exceeded" |}.

Definition down : Backend :=
  {| methods := λ o name, match Sample.core name with
                          | Some _ => Some (λ _, inl unreachable)
                          | None => None
                          end;
     sanitize_for_serialization := Sample.to_dict |}.

(** The sample cluster with API discovery. *)
Definition api_resources : PyVal :=
  PyModel "V1APIResourceList"
    [("resources",
      PyList [PyModel "V1APIResource" [("kind", PyStr "Pod"); ("name", PyStr "pods")];
              PyModel "V1APIResource" [("kind", PyStr "Node"); ("name", PyStr "nodes")]])].

Definition discovery : Backend :=
  {| methods := λ o name,
       match o with
       | CoreV1Api =>
           if String.eqb name "get_api_resources" then Some (λ _, inr api_resources)
           else Sample.core name
       | _ => None
       end;
     sanitize_for_serialization := Sample.to_dict |}.

(** The sample cluster with a serialisation that fails on one pod. *)
Definition not_serialisable : Exc :=
  {| exc_class := OtherException; exc_str := "cannot serialise web-2" |}.

Definition brittle : Backend :=
  {| methods := methods Sample.backend;
     sanitize_for_serialization := λ v,
       if Sample.named "web-2" v then inl not_serialisable else Sample.to_dict v |}.



End Scenario.

(** * Properties *)

(** ** Running computations *)

Section Running.
Context {A B : Type}.

Lemma bind_mret (a : A) (f : A → Py B) : (mret a ≫= f) = f a.
Proof. unfold mbind, Py_bind, mret, Py_ret. by destruct (f a). Qed.

Lemma bind_raise (e : Exc) (f : A → Py B) : (raise e ≫= f) = raise e.
Proof. reflexivity. Qed.

Lemma bind_run (m : Py A) (f : A → Py B) :
  (m ≫= f) =
  match m with
  | (t, inl e) => (t, inl e)
  | (t, inr a) => (t ++ trace (f a), outcome (f a))
  end.
Proof.
  unfold mbind, Py_bind, trace, outcome.
  destruct m as [t [e|a]]; [done|]. by destruct (f a).
Qed.

Lemma try_except_run (m : Py A) (h : Exc → Py A) :
  try_except m h =
  match m with
  | (t, inl e) => (t ++ trace (h e), outcome (h e))
  | (t, inr a) => (t, inr a)
  end.
Proof.
  unfold try_except, trace, outcome.
  destruct m as [t [e|a]]; [|done]. by destruct (h e).
Qed.

Lemma invocations_app (t1 t2 : list Event) :
  invocations (t1 ++ t2) = invocations t1 ++ invocations t2.
Proof.
  induction t1 as [|[line|o m kw] t1 IH]; simpl; [done|done|by rewrite IH].
Qed.
End Running.

(** ** The registry *)

(** Every key of the table is in lower case, and no resource type is empty. *)
Lemma resource_table_entry core apps networking events kind api rt :
  resource_table core apps networking events !! kind = Some (api, rt) →
  lower kind = kind ∧ truthy rt = true.
Proof.
  intros H. apply elem_of_list_to_map_2 in H.
  repeat (apply elem_of_cons in H as [H|H]; [by simplify_eq|]).
  by apply elem_of_nil in H.
Qed.

(** The registry is available exactly when the four API attributes are set. *)
Lemma mapping_inv self t resources :
  _get_resource_mapping self = (t, inr resources) →
  t = [] ∧ ∃ core apps networking events,
    resources = resource_table core apps networking events.
Proof.
  unfold _get_resource_mapping.
  destruct (core_v1_api self) as [c|], (apps_v1_api self) as [a|],
    (networking_v1_api self) as [n|], (events_1_api self) as [e|];
    simpl; intros H; simplify_eq; eauto 6.
Qed.

Lemma mapping_cases self :
  (∃ resources, _get_resource_mapping self = mret resources) ∨
  (∃ e, _get_resource_mapping self = raise e).
Proof.
  unfold _get_resource_mapping.
  destruct (core_v1_api self) as [c|], (apps_v1_api self) as [a|],
    (networking_v1_api self) as [n|], (events_1_api self) as [e|];
    simpl; eauto.
Qed.

Section Registry.
Variables (self : KubeClient) (resources : gmap string (ApiObject * string)).
Hypothesis Hm : _get_resource_mapping self = mret resources.

Lemma mapping_entry kind api rt :
  resources !! kind = Some (api, rt) →
  lower kind = kind ∧ truthy rt = true.
Proof.
  intros Hk. destruct (mapping_inv _ _ _ Hm) as (_ & c & a & n & e & ->).
  by eapply resource_table_entry.
Qed.

(** What the two lookup helpers compute. *)
Lemma normalize_run kind :
  _normalize_resource_kind self kind =
  mret (if endswith (lower kind) "s" && negb (py_in (lower kind) resources)
        then drop_last (lower kind) else lower kind).
Proof.
  unfold _normalize_resource_kind. rewrite Hm, bind_mret.
  by destruct (_ && _).
Qed.

(** A key of the registry is left as it is. *)
Lemma normalize_key kind :
  is_Some (resources !! kind) →
  _normalize_resource_kind self kind = mret kind.
Proof.
  intros [[api rt] Hk].
  destruct (mapping_entry _ _ _ Hk) as [Hl _].
  rewrite normalize_run, Hl. unfold py_in. rewrite Hk.
  by rewrite andb_false_r.
Qed.

Lemma lookup_run kind n :
  _normalize_resource_kind self kind = mret n →
  _get_api_client_and_resource_type self kind =
  mret (match resources !! n with
        | Some (api, rt) => (Some api, Some rt)
        | None => (None, None)
        end).
Proof.
  intros Hn. unfold _get_api_client_and_resource_type.
  rewrite Hn, bind_mret, Hm, bind_mret.
  by destruct (resources !! n) as [[api rt]|].
Qed.

End Registry.

Lemma normalize_inv self kind t n :
  _normalize_resource_kind self kind = (t, inr n) →
  ∃ resources, _get_resource_mapping self = mret resources.
Proof.
  destruct (mapping_cases self) as [[r Hr]|[e He]]; [eauto|].
  unfold _normalize_resource_kind. by rewrite He, bind_raise.
Qed.

(** ** Strings: the slices of the code against the recursive definitions *)

Lemma endswith_s (s : string) : endswith s "s" = has_trailing_s s.
Proof.
  unfold endswith. induction s as [|c s IH]; [done|].
  destruct s as [|c' s'].
  - simpl. by destruct (Ascii.eqb c "s").
  - change (has_trailing_s (String c (String c' s'))) with (has_trailing_s (String c' s')).
    rewrite <- IH. simpl. by rewrite !Nat.sub_0_r.
Qed.

Lemma drop_last_strip (s : string) :
  has_trailing_s s = true → drop_last s = strip_trailing_s s.
Proof.
  unfold drop_last. induction s as [|c s IH]; [done|].
  destruct s as [|c' s'].
  - simpl. by intros ->.
  - intros H.
    change (strip_trailing_s (String c (String c' s')))
      with (String c (strip_trailing_s (String c' s'))).
    rewrite <- (IH H). simpl. by rewrite !Nat.sub_0_r.
Qed.

(** ** Resolution *)

(** C2.  On a client whose registry is available, resolving a kind is
    the algorithm of the specification, step for step: lowercase, look
    up, on a miss with a trailing "s" strip one "s" and look up again,
    and report nothing ([(None, None)]) when that fails too. *)
Theorem resolve_refines_spec (self : KubeClient)
  (resources : gmap string (ApiObject * string)) (kind : string) :
  _get_resource_mapping self = mret resources →
  _get_api_client_and_resource_type self kind =
  mret (match resolve_spec resources kind with
        | Some (api, resource_type) => (Some api, Some resource_type)
        | None => (None, None)
        end).
Proof.
  intros Hm.
  rewrite (lookup_run _ _ Hm _ _ (normalize_run _ _ Hm _)).
  unfold resolve_spec, py_in. rewrite endswith_s.
  destruct (resources !! lower kind) as [[api rt]|] eqn:Hk.
  - by rewrite andb_false_r, Hk.
  - rewrite andb_true_r.
    destruct (has_trailing_s (lower kind)) eqn:Hs.
    + by rewrite drop_last_strip.
    + by rewrite Hk.
Qed.

Lemma resolve_refines_spec_witness :
  _get_resource_mapping Sample.connected
    = mret (resource_table CoreV1Api AppsV1Api NetworkingV1Api EventsV1Api) ∧
  _get_api_client_and_resource_type Sample.connected "Deployments"
    = mret (Some AppsV1Api, Some "deployment").
Proof.
  split; [reflexivity|].
  exact (resolve_refines_spec Sample.connected _ "Deployments" eq_refl).
Defined.

(** C3.  Normalising twice is normalising once for every kind that
    resolves, and a key of the registry is its own normal form. *)
Theorem normalize_idempotent (self : KubeClient)
  (resources : gmap string (ApiObject * string)) :
  _get_resource_mapping self = mret resources →
  (∀ x, resolves self x →
     (_normalize_resource_kind self x ≫= _normalize_resource_kind self)
     = _normalize_resource_kind self x) ∧
  (∀ k, is_Some (resources !! k) → _normalize_resource_kind self k = mret k).
Proof.
  intros Hm. split; [|intros k; by apply (normalize_key _ _ Hm)].
  intros x (api & rt & Hx).
  pose proof (normalize_run _ _ Hm x) as Hn.
  rewrite (lookup_run _ _ Hm _ _ Hn) in Hx.
  rewrite Hn, bind_mret. apply (normalize_key _ _ Hm).
  destruct (resources !! _) as [d|]; [eauto|]. discriminate Hx.
Qed.

Lemma normalize_idempotent_witness :
  _get_resource_mapping Sample.connected
    = mret (resource_table CoreV1Api AppsV1Api NetworkingV1Api EventsV1Api) ∧
  resolves Sample.connected "Pods" ∧
  (_normalize_resource_kind Sample.connected "Pods"
     ≫= _normalize_resource_kind Sample.connected)
    = _normalize_resource_kind Sample.connected "Pods" ∧
  is_Some (resource_table CoreV1Api AppsV1Api NetworkingV1Api EventsV1Api !! "ingress") ∧
  _normalize_resource_kind Sample.connected "ingress" = mret "ingress".
Proof.
  assert (resolves Sample.connected "Pods") as Hr
    by (exists CoreV1Api, "pod"; reflexivity).
  assert (is_Some (resource_table CoreV1Api AppsV1Api NetworkingV1Api EventsV1Api
                     !! "ingress")) as Hk
    by (eexists; reflexivity).
  pose proof (normalize_idempotent Sample.connected _ eq_refl) as [Hx Hkey].
  split; [reflexivity|]. split; [assumption|]. split; [exact (Hx "Pods" Hr)|].
  split; [assumption|exact (Hkey "ingress" Hk)].
Defined.

(** ** The shape of the gateway operations once the kind is looked up *)

Lemma lookup_inv self kind t api rt :
  _get_api_client_and_resource_type self kind = (t, inr (Some api, Some rt)) →
  ∃ resources n,
    _get_resource_mapping self = mret resources ∧
    _normalize_resource_kind self kind = mret n ∧
    resources !! n = Some (api, rt).
Proof.
  intros H.
  destruct (mapping_cases self) as [[r Hr]|[e He]].
  - exists r. eexists. split; [done|]. split; [by apply (normalize_run _ _ Hr)|].
    rewrite (lookup_run _ _ Hr _ _ (normalize_run _ _ Hr _)) in H.
    destruct (r !! _) as [[a b]|]; unfold mret, Py_ret in H; by simplify_eq.
  - unfold _get_api_client_and_resource_type, _normalize_resource_kind in H.
    by rewrite He in H.
Qed.

(** A kind that resolves is looked up the same way after normalisation. *)
Lemma lookup_normalized self kind n api rt :
  _normalize_resource_kind self kind = mret n →
  _get_api_client_and_resource_type self kind = mret (Some api, Some rt) →
  _get_api_client_and_resource_type self n = mret (Some api, Some rt).
Proof.
  intros Hn Hl.
  apply lookup_inv in Hl as (r & n' & Hm & Hn' & Hk).
  rewrite Hn in Hn'. simplify_eq.
  rewrite (lookup_run _ _ Hm _ n'), Hk; [done|].
  apply (normalize_key _ _ Hm). eauto.
Qed.

Lemma lookup_truthy self kind t api rt :
  _get_api_client_and_resource_type self kind = (t, inr (Some api, Some rt)) →
  truthy rt = true.
Proof.
  intros (r & n & Hm & _ & Hk)%lookup_inv.
  by destruct (mapping_entry _ _ Hm _ _ _ Hk).
Qed.

Lemma get_resources_unsupported B self kind namespace n :
  _normalize_resource_kind self kind = mret n →
  _get_api_client_and_resource_type self n = mret (None, None) →
  get_resources B self kind namespace = mret (PyList []).
Proof.
  intros Hn Hl. unfold get_resources. by rewrite Hn, bind_mret, Hl, bind_mret.
Qed.

Lemma get_resources_supported B self kind namespace n api rt :
  _normalize_resource_kind self kind = mret n →
  _get_api_client_and_resource_type self n = mret (Some api, Some rt) →
  get_resources B self kind namespace =
  (print ("Getting " +:+ n +:+ " from " +:+
          (if truthy_opt namespace then str_opt namespace else "all namespaces"));;
   try_except
     (result ← dispatch_list B api n rt namespace;
      items ← py_items result;
      serializable_items ← serialize_items B self items [];
      mret (PyList serializable_items))
     (λ e, print ("Error getting " +:+ n +:+ ": " +:+ exc_str e);;
           mret (PyList []))).
Proof.
  intros Hn Hl. unfold get_resources.
  rewrite Hn, bind_mret, Hl, bind_mret.
  by rewrite (lookup_truthy _ _ _ _ _ Hl).
Qed.

Lemma describe_resource_unsupported B self kind name namespace n :
  _normalize_resource_kind self kind = mret n →
  _get_api_client_and_resource_type self n = mret (None, None) →
  describe_resource B self kind name namespace
  = mret (ErrorDocument ("Unsupported resource kind: " +:+ n)).
Proof.
  intros Hn Hl. unfold describe_resource. by rewrite Hn, bind_mret, Hl, bind_mret.
Qed.

Lemma describe_resource_supported B self kind name namespace n api rt :
  _normalize_resource_kind self kind = mret n →
  _get_api_client_and_resource_type self n = mret (Some api, Some rt) →
  describe_resource B self kind name namespace =
  (print ("Describing " +:+ n +:+ " " +:+ name +:+ " in namespace " +:+ namespace);;
   try_except
     (result ← dispatch_read B api n rt name namespace;
      resource_dict ← sanitize B self result;
      mret resource_dict)
     (λ e, print ("Error describing " +:+ n +:+ " " +:+ name +:+ ": " +:+ exc_str e);;
           mret (ErrorDocument ("Failed to describe " +:+ n +:+ " " +:+ name +:+
                                ": " +:+ exc_str e)))).
Proof.
  intros Hn Hl. unfold describe_resource.
  rewrite Hn, bind_mret, Hl, bind_mret.
  by rewrite (lookup_truthy _ _ _ _ _ Hl).
Qed.

(** Serialisation invokes no backend method and prints nothing. *)
Lemma sanitize_trace B self v : trace (sanitize B self v) = [].
Proof.
  unfold sanitize. by destruct (api_client self) as [[]|].
Qed.

Lemma serialize_items_trace B self items acc :
  trace (serialize_items B self items acc) = [].
Proof.
  revert acc. induction items as [|item rest IH]; intros acc; [done|].
  simpl. rewrite bind_run.
  pose proof (sanitize_trace B self item) as Hs.
  destruct (sanitize B self item) as [t [e|d]]; simpl in *; subst; [done|].
  by rewrite IH.
Qed.

Lemma py_items_trace v : trace (py_items v) = [].
Proof.
  destruct v as [| | | | | |cls attrs]; try done.
  simpl. destruct (lookup_attr "items" attrs) as [[]|]; done.
Qed.

(** What follows a raised exception or a finished call adds no
    invocation. *)
Ltac no_more_calls := by rewrite ?invocations_app, ?app_nil_r.

(** The methods [get_resources] invokes are those of its dispatch. *)
Lemma get_resources_invocations B self kind namespace n api rt :
  _normalize_resource_kind self kind = mret n →
  _get_api_client_and_resource_type self n = mret (Some api, Some rt) →
  invocations (trace (get_resources B self kind namespace))
  = invocations (trace (dispatch_list B api n rt namespace)).
Proof.
  intros Hn Hl. rewrite (get_resources_supported _ _ _ _ _ _ _ Hn Hl).
  rewrite bind_run. simpl. rewrite try_except_run, bind_run.
  destruct (dispatch_list B api n rt namespace) as [t [e|result]]; simpl.
  { no_more_calls. }
  rewrite bind_run. pose proof (py_items_trace result) as Hi.
  destruct (py_items result) as [ti [e|items]]; simpl in *; subst.
  { no_more_calls. }
  rewrite bind_run. pose proof (serialize_items_trace B self items []) as Hs.
  destruct (serialize_items B self items []) as [ts [e|docs]]; simpl in *; subst.
  { no_more_calls. }
  no_more_calls.
Qed.

Lemma describe_resource_invocations B self kind name namespace n api rt :
  _normalize_resource_kind self kind = mret n →
  _get_api_client_and_resource_type self n = mret (Some api, Some rt) →
  invocations (trace (describe_resource B self kind name namespace))
  = invocations (trace (dispatch_read B api n rt name namespace)).
Proof.
  intros Hn Hl. rewrite (describe_resource_supported _ _ _ _ _ _ _ _ Hn Hl).
  rewrite bind_run. simpl. rewrite try_except_run, bind_run.
  destruct (dispatch_read B api n rt name namespace) as [t [e|result]]; simpl.
  { no_more_calls. }
  rewrite bind_run. pose proof (sanitize_trace B self result) as Hs.
  destruct (sanitize B self result) as [ts [e|d]]; simpl in *; subst.
  { no_more_calls. }
  no_more_calls.
Qed.

(** ** Unsupported kinds *)

Lemma strip_trailing_s_none (s : string) :
  has_trailing_s s = false → strip_trailing_s s = s.
Proof.
  induction s as [|c s IH]; [done|].
  destruct s as [|c' s'].
  - simpl. by intros ->.
  - intros H.
    change (strip_trailing_s (String c (String c' s')))
      with (String c (strip_trailing_s (String c' s'))).
    by rewrite (IH H).
Qed.

(** A kind whose normal form is not in the registry was not in it
    before normalisation either, so its normal form is the lowercased
    input without one trailing "s". *)
Lemma unsupported_normal_form self kind n :
  _normalize_resource_kind self kind = mret n →
  _get_api_client_and_resource_type self n = mret (None, None) →
  n = strip_trailing_s (lower kind).
Proof.
  intros Hn Hl.
  destruct (normalize_inv _ _ _ _ Hn) as [r Hm].
  rewrite (normalize_run _ _ Hm) in Hn.
  destruct (r !! lower kind) as [[api rt]|] eqn:Hk.
  - unfold py_in in Hn. rewrite Hk, andb_false_r in Hn.
    unfold mret, Py_ret in Hn. simplify_eq.
    assert (is_Some (r !! lower kind)) as Hs by eauto.
    rewrite (lookup_run _ _ Hm _ _ (normalize_key _ _ Hm _ Hs)), Hk in Hl.
    discriminate Hl.
  - unfold py_in in Hn. rewrite Hk, andb_true_r, endswith_s in Hn.
    unfold mret, Py_ret in Hn.
    destruct (has_trailing_s (lower kind)) eqn:Hs; simplify_eq.
    + by apply drop_last_strip.
    + by rewrite strip_trailing_s_none.
Qed.

(** C4, as the code has it.  When the normalised kind is not in the
    registry, [get_resources] returns the empty list and
    [describe_resource] returns the error document whose message is
    "Unsupported resource kind: " followed by the normalised kind;
    neither raises, prints or calls the backend. *)
Theorem unsupported_kind_soft_fails (B : Backend) (self : KubeClient) (kind n : string) :
  _normalize_resource_kind self kind = mret n →
  _get_api_client_and_resource_type self n = mret (None, None) →
  (∀ namespace, get_resources B self kind namespace = mret (PyList [])) ∧
  (∀ name namespace,
     describe_resource B self kind name namespace
     = mret (ErrorDocument ("Unsupported resource kind: " +:+ n))).
Proof.
  intros Hn Hl. split.
  - intros namespace. by apply get_resources_unsupported with n.
  - intros name namespace. by apply describe_resource_unsupported.
Qed.

Lemma unsupported_kind_soft_fails_witness :
  _normalize_resource_kind Sample.connected "frobnicator" = mret "frobnicator" ∧
  _get_api_client_and_resource_type Sample.connected "frobnicator" = mret (None, None) ∧
  get_resources Sample.backend Sample.connected "frobnicator" (Some "team-a")
    = mret (PyList []) ∧
  describe_resource Sample.backend Sample.connected "frobnicator" "x" "default"
    = mret (ErrorDocument "Unsupported resource kind: frobnicator").
Proof.
  split; [reflexivity|]. split; [reflexivity|].
  pose proof (unsupported_kind_soft_fails Sample.backend Sample.connected
                "frobnicator" "frobnicator" eq_refl eq_refl) as [Hl Hd].
  split; [exact (Hl (Some "team-a"))|exact (Hd "x" "default")].
Defined.

(** C4, as the claim words the message: the document returned for
    "frobnicator" is not the one with the message in lower case. *)
Lemma unsupported_message_counterexample :
  _get_api_client_and_resource_type Sample.connected "frobnicator" = mret (None, None) ∧
  outcome (describe_resource Sample.backend Sample.connected "frobnicator" "x" "default")
    ≠ inr (ErrorDocument "unsupported resource kind: frobnicator").
Proof.
  split; [reflexivity|]. vm_compute. discriminate.
Qed.

(** The lookup of [get_resources] and [describe_resource] runs on the
    normalised kind and normalises it once more: "podss" does not
    resolve, yet both operations treat it as "pod". *)
Example doubled_plural_reaches_pods :
  _get_api_client_and_resource_type Sample.connected "podss" = mret (None, None) ∧
  invocations (trace (get_resources Sample.backend Sample.connected "podss" None))
    = [(CoreV1Api, "list_pod_for_all_namespaces", [])] ∧
  invocations (trace (describe_resource Sample.backend Sample.connected "podss" "web-1" "team-a"))
    = [(CoreV1Api, "read_namespaced_pod",
        [("name", PyStr "web-1"); ("namespace", PyStr "team-a")])].
Proof. repeat split; reflexivity. Qed.

(** C10.  The message for an unsupported kind names the normalised
    kind, which is the lowercased input without one trailing "s", and
    not the string the caller gave. *)
Theorem unsupported_message_names_normal_form (B : Backend) (self : KubeClient)
  (kind name namespace n : string) :
  _normalize_resource_kind self kind = mret n →
  _get_api_client_and_resource_type self n = mret (None, None) →
  n = strip_trailing_s (lower kind) ∧
  describe_resource B self kind name namespace
  = mret (ErrorDocument ("Unsupported resource kind: " +:+ strip_trailing_s (lower kind))).
Proof.
  intros Hn Hl.
  pose proof (unsupported_normal_form _ _ _ Hn Hl) as Hf.
  split; [done|]. rewrite <- Hf. by apply describe_resource_unsupported.
Qed.

Lemma unsupported_message_names_normal_form_witness :
  _normalize_resource_kind Sample.connected "Frobnicators" = mret "frobnicator" ∧
  _get_api_client_and_resource_type Sample.connected "frobnicator" = mret (None, None) ∧
  describe_resource Sample.backend Sample.connected "Frobnicators" "x" "default"
    = mret (ErrorDocument "Unsupported resource kind: frobnicator").
Proof.
  split; [reflexivity|]. split; [reflexivity|].
  exact (proj2 (unsupported_message_names_normal_form Sample.backend Sample.connected
                  "Frobnicators" "x" "default" "frobnicator" eq_refl eq_refl)).
Defined.

(** ** Dispatch of the list and read operations *)

Lemma dispatch_list_namespaced B api kind rt namespace :
  kind ≠ "namespace" → namespace ≠ "" →
  invocations (trace (dispatch_list B api kind rt (Some namespace)))
  = match methods B api ("list_namespaced_" +:+ rt) with
    | Some _ => [(api, "list_namespaced_" +:+ rt, [("namespace", PyStr namespace)])]
    | None => []
    end.
Proof.
  intros Hk Hns. unfold dispatch_list, truthy_opt, truthy, getattr.
  apply String.eqb_neq in Hk, Hns. rewrite Hk, Hns. simpl.
  by destruct (methods B api _).
Qed.

Lemma dispatch_list_unscoped B api kind rt namespace :
  kind = "namespace" ∨ truthy_opt namespace = false →
  (∀ i, i ∈ invocations (trace (dispatch_list B api kind rt namespace)) →
        i = (api, "list_" +:+ rt +:+ "_for_all_namespaces", []) ∨
        i = (api, "list_" +:+ rt, [])) ∧
  (methods B api ("list_" +:+ rt +:+ "_for_all_namespaces") = None →
   is_Some (methods B api ("list_" +:+ rt)) →
   invocations (trace (dispatch_list B api kind rt namespace))
   = [(api, "list_" +:+ rt, [])]).
Proof.
  intros Hc.
  assert (truthy_opt namespace && negb (String.eqb kind "namespace") = false) as Hb.
  { destruct Hc as [->| ->]; [by rewrite andb_false_r|done]. }
  unfold dispatch_list. rewrite Hb.
  unfold try_except_AttributeError, getattr. split.
  - intros i.
    destruct (methods B api ("list_" +:+ rt +:+ "_for_all_namespaces")) as [g|];
      simpl; [destruct (g []) as [e|v]; simpl; [destruct (is_AttributeError e)|]|];
      destruct (methods B api ("list_" +:+ rt)) as [f|]; simpl;
      rewrite ?elem_of_cons, ?elem_of_nil; tauto.
  - intros -> [f ->]. done.
Qed.

Lemma dispatch_read_namespace B api rt name namespace :
  invocations (trace (dispatch_read B api "namespace" rt name namespace))
  = match methods B api ("read_" +:+ rt) with
    | Some _ => [(api, "read_" +:+ rt, [("name", PyStr name)])]
    | None => []
    end.
Proof.
  unfold dispatch_read, getattr. simpl. by destruct (methods B api _).
Qed.

Lemma dispatch_list_namespaced_missing B api kind rt namespace :
  kind ≠ "namespace" → namespace ≠ "" →
  methods B api ("list_namespaced_" +:+ rt) = None →
  dispatch_list B api kind rt (Some namespace)
  = raise (attribute_error (class_name api) ("list_namespaced_" +:+ rt)).
Proof.
  intros Hk Hns Hm. unfold dispatch_list, truthy_opt, truthy, getattr.
  apply String.eqb_neq in Hk, Hns. by rewrite Hk, Hns, Hm.
Qed.

(** C5, as the claim states it, fails: "node" resolves and is not
    "namespace", yet with the namespace "ns1" [get_resources] invokes no
    backend method at all, because the API object has no
    [list_namespaced_node], and returns the empty list. *)
Lemma namespaced_list_counterexample :
  _normalize_resource_kind Sample.connected "node" = mret "node" ∧
  _get_api_client_and_resource_type Sample.connected "node"
    = mret (Some CoreV1Api, Some "node") ∧
  methods Sample.backend CoreV1Api "list_namespaced_node" = None ∧
  invocations (trace (get_resources Sample.backend Sample.connected "node" (Some "ns1")))
    = [] ∧
  ((CoreV1Api, "list_namespaced_node", [("namespace", PyStr "ns1")])
     ∉ invocations (trace (get_resources Sample.backend Sample.connected "node" (Some "ns1")))) ∧
  outcome (get_resources Sample.backend Sample.connected "node" (Some "ns1"))
    = inr (PyList []).
Proof.
  repeat (split; [reflexivity|]). split; [|reflexivity].
  change (invocations _) with (@nil (ApiObject * string * kwargs)).
  apply not_elem_of_nil.
Qed.

(** C5, as the code has it.  For a kind that resolves and whose normal
    form is not "namespace", with a non-empty namespace argument,
    [get_resources] looks for [list_namespaced_<type>] and for nothing
    else.  When the API object has that method it is invoked, with that
    namespace, and it is the only invocation; when the API object has
    no such method nothing is invoked and the result is the empty list.
    No all-namespaces or unscoped list is ever invoked. *)
Theorem namespaced_list_dispatch (B : Backend) (self : KubeClient)
  (kind namespace n : string) (api : ApiObject) (rt : string) :
  _normalize_resource_kind self kind = mret n →
  _get_api_client_and_resource_type self kind = mret (Some api, Some rt) →
  n ≠ "namespace" →
  namespace ≠ "" →
  (is_Some (methods B api ("list_namespaced_" +:+ rt)) →
   invocations (trace (get_resources B self kind (Some namespace)))
   = [(api, "list_namespaced_" +:+ rt, [("namespace", PyStr namespace)])]) ∧
  (methods B api ("list_namespaced_" +:+ rt) = None →
   invocations (trace (get_resources B self kind (Some namespace))) = [] ∧
   outcome (get_resources B self kind (Some namespace)) = inr (PyList [])) ∧
  (∀ i, i ∈ invocations (trace (get_resources B self kind (Some namespace))) →
        i = (api, "list_namespaced_" +:+ rt, [("namespace", PyStr namespace)])).
Proof.
  intros Hn Hl Hk Hns.
  pose proof (lookup_normalized _ _ _ _ _ Hn Hl) as Hl'.
  rewrite (get_resources_invocations _ _ _ _ _ _ _ Hn Hl').
  rewrite (dispatch_list_namespaced _ _ _ _ _ Hk Hns).
  split; [by intros [f ->]|]. split.
  - intros Hm. rewrite Hm. split; [done|].
    rewrite (get_resources_supported _ _ _ _ _ _ _ Hn Hl').
    rewrite bind_run. simpl. rewrite try_except_run, bind_run.
    by rewrite (dispatch_list_namespaced_missing _ _ _ _ _ Hk Hns Hm).
  - intros i. destruct (methods B api _); rewrite ?elem_of_cons, ?elem_of_nil; tauto.
Qed.

Lemma namespaced_list_dispatch_witness :
  _normalize_resource_kind Sample.connected "Pods" = mret "pod" ∧
  _get_api_client_and_resource_type Sample.connected "Pods"
    = mret (Some CoreV1Api, Some "pod") ∧
  "pod" ≠ "namespace" ∧ "ns1" ≠ "" ∧
  is_Some (methods Sample.backend CoreV1Api "list_namespaced_pod") ∧
  invocations (trace (get_resources Sample.backend Sample.connected "Pods" (Some "ns1")))
  = [(CoreV1Api, "list_namespaced_pod", [("namespace", PyStr "ns1")])].
Proof.
  assert ("pod" ≠ "namespace") as Hk by discriminate.
  assert ("ns1" ≠ "") as Hns by discriminate.
  assert (is_Some (methods Sample.backend CoreV1Api "list_namespaced_pod")) as Hm
    by (eexists; reflexivity).
  repeat (split; [first [reflexivity|assumption]|]).
  exact (proj1 (namespaced_list_dispatch Sample.backend Sample.connected
                  "Pods" "ns1" "pod" CoreV1Api "pod" eq_refl eq_refl Hk Hns) Hm).
Defined.

(** C1, as the claim states it, fails: for "node" with a namespace
    [get_resources] looks for [list_namespaced_node], and for "node"
    [describe_resource] looks for [read_namespaced_node]; on a backend
    that has only [list_node] and [read_node] neither is invoked. *)
Lemma cluster_scoped_counterexample :
  get_resources Sample.backend Sample.connected "node" (Some "ns1")
  = ([Print "Getting node from ns1";
      Print "Error getting node: 'CoreV1Api' object has no attribute 'list_namespaced_node'"],
     inr (PyList [])) ∧
  describe_resource Sample.backend Sample.connected "node" "n1" "default"
  = ([Print "Describing node n1 in namespace default";
      Print "Error describing node n1: 'CoreV1Api' object has no attribute 'read_namespaced_node'"],
     inr (ErrorDocument
            "Failed to describe node n1: 'CoreV1Api' object has no attribute 'read_namespaced_node'")) ∧
  is_Some (methods Sample.backend CoreV1Api "list_node") ∧
  is_Some (methods Sample.backend CoreV1Api "read_node").
Proof.
  split; [reflexivity|]. split; [reflexivity|]. split; eexists; reflexivity.
Qed.

(** C1, as the code has it.  Only the kind "namespace" is kept away
    from the namespaced methods whatever the namespace argument; "node"
    and "persistentvolume" are when the namespace argument is empty or
    absent.  Then [get_resources] invokes nothing but the all-namespaces
    list and the unscoped list, and exactly the unscoped list when the
    backend has no all-namespaces variant; for "namespace"
    [describe_resource] invokes nothing but the unscoped read. *)
Theorem cluster_scoped_dispatch (B : Backend) (self : KubeClient)
  (resources : gmap string (ApiObject * string)) (core : ApiObject) (kind rt : string) :
  _get_resource_mapping self = mret resources →
  resources !! kind = Some (core, rt) →
  kind ∈ ["namespace"; "node"; "persistentvolume"] →
  (∀ namespace, kind = "namespace" ∨ truthy_opt namespace = false →
     (∀ i, i ∈ invocations (trace (get_resources B self kind namespace)) →
           i = (core, "list_" +:+ rt +:+ "_for_all_namespaces", []) ∨
           i = (core, "list_" +:+ rt, [])) ∧
     (methods B core ("list_" +:+ rt +:+ "_for_all_namespaces") = None →
      is_Some (methods B core ("list_" +:+ rt)) →
      invocations (trace (get_resources B self kind namespace))
      = [(core, "list_" +:+ rt, [])])) ∧
  (∀ name namespace, kind = "namespace" →
     (∀ i, i ∈ invocations (trace (describe_resource B self kind name namespace)) →
           i = (core, "read_" +:+ rt, [("name", PyStr name)])) ∧
     (is_Some (methods B core ("read_" +:+ rt)) →
      invocations (trace (describe_resource B self kind name namespace))
      = [(core, "read_" +:+ rt, [("name", PyStr name)])])).
Proof.
  intros Hm Hk _.
  assert (is_Some (resources !! kind)) as Hs by eauto.
  pose proof (normalize_key _ _ Hm _ Hs) as Hn.
  pose proof (lookup_run _ _ Hm _ _ Hn) as Hl. rewrite Hk in Hl.
  split.
  - intros namespace Hc.
    rewrite (get_resources_invocations _ _ _ _ _ _ _ Hn Hl).
    by apply dispatch_list_unscoped.
  - intros name namespace ->.
    rewrite (describe_resource_invocations _ _ _ _ _ _ _ _ Hn Hl).
    rewrite dispatch_read_namespace. split.
    + intros i. destruct (methods B core _); rewrite ?elem_of_cons, ?elem_of_nil; tauto.
    + by intros [f ->].
Qed.

Lemma cluster_scoped_dispatch_witness :
  _get_resource_mapping Sample.connected
    = mret (resource_table CoreV1Api AppsV1Api NetworkingV1Api EventsV1Api) ∧
  resource_table CoreV1Api AppsV1Api NetworkingV1Api EventsV1Api !! "node"
    = Some (CoreV1Api, "node") ∧
  "node" ∈ ["namespace"; "node"; "persistentvolume"] ∧
  truthy_opt (Some "") = false ∧
  methods Sample.backend CoreV1Api "list_node_for_all_namespaces" = None ∧
  is_Some (methods Sample.backend CoreV1Api "list_node") ∧
  invocations (trace (get_resources Sample.backend Sample.connected "node" (Some "")))
    = [(CoreV1Api, "list_node", [])].
Proof.
  assert ("node" ∈ ["namespace"; "node"; "persistentvolume"]) as Hin
    by (apply elem_of_cons; right; apply elem_of_cons; by left).
  assert (is_Some (methods Sample.backend CoreV1Api "list_node")) as Hm
    by (eexists; reflexivity).
  repeat (split; [first [reflexivity|assumption]|]).
  exact (proj2 (proj1 (cluster_scoped_dispatch Sample.backend Sample.connected
                         _ CoreV1Api "node" "node" eq_refl eq_refl Hin)
                  (Some "") (or_intror eq_refl)) eq_refl Hm).
Defined.

(** ** Failures *)

(** Once the registry is available [get_resources] never raises, and a
    failure of the backend call gives the empty list. *)
Lemma get_resources_never_raises B self resources kind namespace :
  _get_resource_mapping self = mret resources →
  ∃ v, outcome (get_resources B self kind namespace) = inr v.
Proof.
  intros Hm.
  pose proof (normalize_run _ _ Hm kind) as Hn.
  set (n := if _ && _ then _ else _) in Hn.
  pose proof (lookup_run _ _ Hm n _ (normalize_run _ _ Hm n)) as Hl.
  destruct (resources !! _) as [[api rt]|].
  - rewrite (get_resources_supported _ _ _ _ _ _ _ Hn Hl).
    rewrite bind_run. simpl. rewrite try_except_run.
    destruct (_ ≫= _) as [t [e|v]]; simpl; eauto.
  - rewrite (get_resources_unsupported _ _ _ _ _ Hn Hl). simpl. eauto.
Qed.

(** The [try] block of [get_resources] decides the result: its value,
    or the empty list when the call, the access to [items] or the
    serialisation raises. *)
Lemma get_resources_outcome B self kind namespace n api rt :
  _normalize_resource_kind self kind = mret n →
  _get_api_client_and_resource_type self n = mret (Some api, Some rt) →
  outcome (get_resources B self kind namespace)
  = match outcome (result ← dispatch_list B api n rt namespace;
                   items ← py_items result;
                   serializable_items ← serialize_items B self items [];
                   mret (PyList serializable_items)) with
    | inl _ => inr (PyList [])
    | inr v => inr v
    end.
Proof.
  intros Hn Hl.
  rewrite (get_resources_supported _ _ _ _ _ _ _ Hn Hl).
  rewrite bind_run. simpl. rewrite try_except_run.
  by destruct (_ ≫= _) as [t [e|v]].
Qed.

Lemma get_resources_backend_failure B self kind namespace n api rt e :
  _normalize_resource_kind self kind = mret n →
  _get_api_client_and_resource_type self n = mret (Some api, Some rt) →
  outcome (dispatch_list B api n rt namespace) = inl e →
  outcome (get_resources B self kind namespace) = inr (PyList []).
Proof.
  intros Hn Hl He.
  rewrite (get_resources_outcome _ _ _ _ _ _ _ Hn Hl), bind_run.
  destruct (dispatch_list B api n rt namespace) as [t [e'|v]]; simpl in *; [done|].
  discriminate He.
Qed.

(** C6 at the failing start.  When the configuration cannot be loaded,
    [app_lifespan] still hands out a client, with no attribute set; on
    that client [get_resources] raises [AttributeError] for every kind
    and namespace, because the registry is built outside its [try]. *)
Theorem get_resources_raises_after_failed_start (B : Backend) (e1 e2 : Exc)
  (kind : string) (namespace : option string) :
  ∃ t self,
    app_lifespan (inl e1) (inl e2) = (t, inr self) ∧
    get_resources B self kind namespace
    = raise (attribute_error "KubeClient" "core_v1_api").
Proof.
  exists [Print "Initializing Kubernetes client...";
          Print ("Warning: Failed to connect to Kubernetes cluster: " +:+ exc_str e1);
          Print ("Warning: Failed to connect to Kubernetes cluster: " +:+ exc_str e2)],
         fresh.
  split; reflexivity.
Qed.

(** C7.  Called with the pod name only, [get_pod_logs] invokes
    [read_namespaced_pod_log] once, with the namespace "default", no
    container, [pretty=True] and [tail_lines=100]. *)
Theorem get_pod_logs_defaults (B : Backend) (self : KubeClient) (pod_name : string)
  (core : ApiObject) :
  core_v1_api self = Some core →
  is_Some (methods B core "read_namespaced_pod_log") →
  invocations (trace (get_pod_logs B self pod_name
                        default_container default_namespace default_tail_lines))
  = [(core, "read_namespaced_pod_log",
      [("name", PyStr pod_name);
       ("namespace", PyStr "default");
       ("container", PyNone);
       ("pretty", PyBool true);
       ("tail_lines", PyInt 100)])].
Proof.
  intros Hc [f Hf]. unfold get_pod_logs, read_pod_log, self_attr, getattr.
  rewrite Hc, bind_mret, Hf, bind_mret.
  rewrite try_except_run, bind_run. simpl.
  destruct (f _) as [e|v]; simpl; by rewrite ?app_nil_r.
Qed.

Lemma get_pod_logs_defaults_witness :
  core_v1_api Sample.connected = Some CoreV1Api ∧
  is_Some (methods Sample.backend CoreV1Api "read_namespaced_pod_log") ∧
  invocations (trace (get_pod_logs Sample.backend Sample.connected "p1"
                        default_container default_namespace default_tail_lines))
  = [(CoreV1Api, "read_namespaced_pod_log",
      [("name", PyStr "p1");
       ("namespace", PyStr "default");
       ("container", PyNone);
       ("pretty", PyBool true);
       ("tail_lines", PyInt 100)])].
Proof.
  assert (is_Some (methods Sample.backend CoreV1Api "read_namespaced_pod_log")) as Hm
    by (eexists; reflexivity).
  split; [reflexivity|]. split; [assumption|].
  exact (get_pod_logs_defaults Sample.backend Sample.connected "p1" CoreV1Api eq_refl Hm).
Defined.

(** C8, as the claim words the message: the document returned for a
    pod that does not exist starts with a capital letter. *)
Lemma describe_failure_message_counterexample :
  outcome (dispatch_read Sample.backend CoreV1Api "pod" "pod" "nope" "default")
    = inl Sample.not_found ∧
  outcome (describe_resource Sample.backend Sample.connected "pod" "nope" "default")
    = inr (ErrorDocument "Failed to describe pod nope: (404) Reason: Not Found") ∧
  outcome (describe_resource Sample.backend Sample.connected "pod" "nope" "default")
    ≠ inr (ErrorDocument "failed to describe pod nope: (404) Reason: Not Found").
Proof.
  split; [reflexivity|]. split; [reflexivity|]. vm_compute. discriminate.
Qed.

(** C8, as the code has it.  Once the normalised kind is looked up,
    [describe_resource] never raises; when the read fails, because the
    method is missing or because the call raises, and when the
    serialisation of its result fails, it returns the error document
    "Failed to describe <normalised kind> <name>: <cause>". *)
Theorem describe_resource_reports_failure (B : Backend) (self : KubeClient)
  (kind name namespace n : string) (api : ApiObject) (rt : string) :
  _normalize_resource_kind self kind = mret n →
  _get_api_client_and_resource_type self n = mret (Some api, Some rt) →
  (∃ v, outcome (describe_resource B self kind name namespace) = inr v) ∧
  (∀ e, outcome (dispatch_read B api n rt name namespace) = inl e →
        outcome (describe_resource B self kind name namespace)
        = inr (ErrorDocument ("Failed to describe " +:+ n +:+ " " +:+ name +:+
                              ": " +:+ exc_str e))) ∧
  (∀ result e, outcome (dispatch_read B api n rt name namespace) = inr result →
        outcome (sanitize B self result) = inl e →
        outcome (describe_resource B self kind name namespace)
        = inr (ErrorDocument ("Failed to describe " +:+ n +:+ " " +:+ name +:+
                              ": " +:+ exc_str e))).
Proof.
  intros Hn Hl.
  rewrite (describe_resource_supported _ _ _ _ _ _ _ _ Hn Hl).
  rewrite bind_run. simpl. rewrite try_except_run, bind_run.
  destruct (dispatch_read B api n rt name namespace) as [t [e|result]]; simpl.
  { split; [eauto|]. split; [by intros ? [= ->]|by intros]. }
  rewrite bind_run.
  split; [destruct (sanitize B self result) as [ts [e|d]]; simpl; eauto|].
  split; [by intros|]. intros r e [= <-] He.
  destruct (sanitize B self result) as [ts [e'|d]]; simpl in *; [|done].
  by injection He as ->.
Qed.

Lemma describe_resource_reports_failure_witness :
  _normalize_resource_kind Sample.connected "Pods" = mret "pod" ∧
  _get_api_client_and_resource_type Sample.connected "pod"
    = mret (Some CoreV1Api, Some "pod") ∧
  outcome (dispatch_read Sample.backend CoreV1Api "pod" "pod" "nope" "default")
    = inl Sample.not_found ∧
  outcome (describe_resource Sample.backend Sample.connected "Pods" "nope" "default")
    = inr (ErrorDocument "Failed to describe pod nope: (404) Reason: Not Found").
Proof.
  split; [reflexivity|]. split; [reflexivity|]. split; [reflexivity|].
  exact (proj1 (proj2 (describe_resource_reports_failure Sample.backend Sample.connected
                         "Pods" "nope" "default" "pod" CoreV1Api "pod" eq_refl eq_refl))
           Sample.not_found eq_refl).
Defined.

(** C9.  When the log call fails, whatever the client and the
    arguments, [get_pod_logs] returns the string "Failed to get logs: "
    followed by the cause: a string with that prefix, hence not empty,
    and no exception. *)
Theorem get_pod_logs_reports_failure (B : Backend) (self : KubeClient)
  (pod_name : string) (container : option string) (namespace : string)
  (tail_lines : Z) (e : Exc) :
  outcome (read_pod_log B self pod_name container namespace tail_lines) = inl e →
  outcome (get_pod_logs B self pod_name container namespace tail_lines)
    = inr (PyStr ("Failed to get logs: " +:+ exc_str e)) ∧
  String.prefix "Failed to get logs: " ("Failed to get logs: " +:+ exc_str e) = true ∧
  "Failed to get logs: " +:+ exc_str e ≠ "".
Proof.
  intros He. unfold get_pod_logs. rewrite try_except_run, bind_run.
  destruct (read_pod_log _ _ _ _ _ _) as [t [e'|v]]; simpl in *; [|discriminate He].
  injection He as ->. split; [done|]. split; [|discriminate].
  by destruct (exc_str e).
Qed.

Lemma get_pod_logs_reports_failure_witness :
  outcome (read_pod_log Sample.backend fresh "p1" None "default" 100)
    = inl (attribute_error "KubeClient" "core_v1_api") ∧
  outcome (get_pod_logs Sample.backend fresh "p1" None "default" 100)
    = inr (PyStr "Failed to get logs: 'KubeClient' object has no attribute 'core_v1_api'").
Proof.
  split; [reflexivity|].
  exact (proj1 (get_pod_logs_reports_failure Sample.backend fresh "p1" None "default" 100
                  (attribute_error "KubeClient" "core_v1_api") eq_refl)).
Defined.

(** ** Sample runs *)

(** Case and plural: "Pods" and "pod" have the normal form "pod". *)
Example normalize_pods :
  _normalize_resource_kind Sample.connected "Pods" = mret "pod" ∧
  _normalize_resource_kind Sample.connected "pod" = mret "pod".
Proof. split; reflexivity. Qed.

(** Of the three pods of the sample, listing "pods" in "team-a" returns
    the two of that namespace, as plain dicts. *)
Example list_pods_in_team_a :
  outcome (get_resources Sample.backend Sample.connected "pods" (Some "team-a"))
  = inr (PyList
           [PyDict [("kind", PyStr "Pod"); ("name", PyStr "web-1");
                    ("namespace", PyStr "team-a")];
            PyDict [("kind", PyStr "Pod"); ("name", PyStr "web-2");
                    ("namespace", PyStr "team-a")]]).
Proof. reflexivity. Qed.

(** A start without configuration prints two warnings and leaves every
    attribute unset. *)
Example start_without_configuration :
  app_lifespan (inl Sample.refused) (inl Sample.refused)
  = ([Print "Initializing Kubernetes client...";
      Print "Warning: Failed to connect to Kubernetes cluster: Invalid kube-config file. No configuration found.";
      Print "Warning: Failed to connect to Kubernetes cluster: Invalid kube-config file. No configuration found."],
     inr fresh).
Proof. reflexivity. Qed.

(** [__init__] assigns [ingress_v1_api] where the registry reads
    [networking_v1_api]: without [aconnect] the registry cannot be built. *)
Example registry_needs_aconnect :
  outcome (__init__ (inr tt) fresh ≫= _get_resource_mapping)
  = inl (attribute_error "KubeClient" "networking_v1_api").
Proof. reflexivity. Qed.

(** * Further properties *)

(** ** Start-up *)

(** X1.  [app_lifespan] never raises, whatever happens to the two
    loads of the configuration, and the registry can be built on the
    client it returns exactly when the load of [aconnect] succeeded: a
    success of [__init__] alone does not help, since it assigns
    [ingress_v1_api] and the registry reads [networking_v1_api]. *)
Theorem registry_available_iff_aconnect_loaded (load1 load2 : Exc + unit) :
  ∃ t self,
    app_lifespan load1 load2 = (t, inr self) ∧
    ((∃ resources, _get_resource_mapping self = mret resources) ↔ load2 = inr tt).
Proof.
  destruct load1 as [e1|[]], load2 as [e2|[]];
    (eexists _, _; split; [reflexivity|]);
    (split; [intros [r Hr]; by vm_compute in Hr|intros H; try discriminate H]);
    eexists; reflexivity.
Qed.

(** ** Which kinds resolve *)

Lemma has_trailing_s_app (k : string) : has_trailing_s (k +:+ "s") = true.
Proof.
  induction k as [|c k IH]; [done|].
  destruct k as [|c' k']; [done|]. exact IH.
Qed.

Lemma strip_trailing_s_app (k : string) : strip_trailing_s (k +:+ "s") = k.
Proof.
  induction k as [|c k IH]; [done|].
  destruct k as [|c' k']; [done|].
  change (String c (strip_trailing_s (String c' k' +:+ "s")) = String c (String c' k')).
  by rewrite IH.
Qed.

Lemma strip_trailing_s_inv (s : string) :
  has_trailing_s s = true → s = strip_trailing_s s +:+ "s".
Proof.
  induction s as [|c s IH]; [done|].
  destruct s as [|c' s'].
  - simpl. intros H. rewrite H. by apply Ascii.eqb_eq in H as ->.
  - intros H.
    change (String c (String c' s') = String c (strip_trailing_s (String c' s') +:+ "s")).
    by rewrite <- (IH H).
Qed.

(** X3.  The inputs that resolve are, up to case, the keys of the
    registry and the keys followed by one "s"; no other plural form
    ("ingresses", "networkpolicies") and no other spelling is accepted. *)
Theorem resolves_iff_key_or_key_s (self : KubeClient)
  (resources : gmap string (ApiObject * string)) (x : string) :
  _get_resource_mapping self = mret resources →
  (resolves self x ↔
   ∃ k, is_Some (resources !! k) ∧ (lower x = k ∨ lower x = k +:+ "s")).
Proof.
  intros Hm. unfold resolves.
  rewrite (lookup_run _ _ Hm _ _ (normalize_run _ _ Hm x)).
  unfold py_in. rewrite endswith_s. split.
  - intros (api & rt & H).
    destruct (resources !! lower x) as [d|] eqn:Hx.
    + exists (lower x). eauto.
    + rewrite andb_true_r in H.
      destruct (has_trailing_s (lower x)) eqn:Hs.
      * exists (drop_last (lower x)). split.
        -- destruct (resources !! drop_last (lower x)) as [d|]; [eauto|discriminate H].
        -- right. rewrite (drop_last_strip _ Hs). by apply strip_trailing_s_inv.
      * rewrite Hx in H. discriminate H.
  - intros (k & [[api rt] Hk] & [Hx|Hx]).
    + rewrite Hx, Hk, andb_false_r, Hk. eauto.
    + rewrite Hx. destruct (resources !! (k +:+ "s")) as [[api' rt']|] eqn:Hks.
      * rewrite andb_false_r, Hks. eauto.
      * rewrite andb_true_r, has_trailing_s_app.
        rewrite (drop_last_strip _ (has_trailing_s_app k)), strip_trailing_s_app, Hk.
        eauto.
Qed.

Lemma resolves_iff_key_or_key_s_witness :
  _get_resource_mapping Sample.connected
    = mret (resource_table CoreV1Api AppsV1Api NetworkingV1Api EventsV1Api) ∧
  (resolves Sample.connected "StatefulSets" ↔
   ∃ k, is_Some (resource_table CoreV1Api AppsV1Api NetworkingV1Api EventsV1Api !! k) ∧
        (lower "StatefulSets" = k ∨ lower "StatefulSets" = k +:+ "s")).
Proof.
  split; [reflexivity|].
  exact (resolves_iff_key_or_key_s Sample.connected _ "StatefulSets" eq_refl).
Defined.

(** X2.  The two gateway operations are insensitive to the case of the
    kind: inputs with the same lower case give the same run, prints
    included. *)
Theorem gateway_case_insensitive (B : Backend) (self : KubeClient) (a b : string) :
  lower a = lower b →
  (∀ namespace, get_resources B self a namespace = get_resources B self b namespace) ∧
  (∀ name namespace,
     describe_resource B self a name namespace = describe_resource B self b name namespace).
Proof.
  intros H.
  assert (_normalize_resource_kind self a = _normalize_resource_kind self b) as Hn.
  { unfold _normalize_resource_kind. by rewrite H. }
  split; intros; [unfold get_resources|unfold describe_resource]; by rewrite Hn.
Qed.

Lemma gateway_case_insensitive_witness :
  lower "PODS" = lower "pods" ∧
  get_resources Sample.backend Sample.connected "PODS" (Some "team-a")
  = get_resources Sample.backend Sample.connected "pods" (Some "team-a").
Proof.
  split; [reflexivity|].
  exact (proj1 (gateway_case_insensitive Sample.backend Sample.connected "PODS" "pods"
                  eq_refl) (Some "team-a")).
Defined.

(** ** Listing *)

(** X4.  An empty namespace string is the same request as no
    namespace: the run of [get_resources] is the same, for every client,
    backend and kind. *)
Theorem empty_namespace_is_all_namespaces (B : Backend) (self : KubeClient)
  (kind : string) :
  get_resources B self kind (Some "") = get_resources B self kind None.
Proof. reflexivity. Qed.

Lemma print_bind_run {A : Type} (line : string) (m : Py A) :
  (print line;; m) = (Print line :: trace m, outcome m).
Proof. by rewrite bind_run. Qed.

Lemma outcome_bind_ok {A B : Type} (m : Py A) (f : A → Py B) t a :
  m = (t, inr a) → outcome (m ≫= f) = outcome (f a).
Proof. intros ->. by rewrite bind_run. Qed.

Lemma py_items_model cls attrs items :
  lookup_attr "items" attrs = Some (PyList items) →
  py_items (PyModel cls attrs) = mret items.
Proof. intros H. unfold py_items. by rewrite H. Qed.

Lemma sanitize_ok B self v d :
  api_client self = Some ApiClient →
  sanitize_for_serialization B v = inr d →
  sanitize B self v = mret d.
Proof. intros Hc Hv. unfold sanitize, self_attr, lift. by rewrite Hc, bind_mret, Hv. Qed.

(** The loop keeps the order of the items. *)
Lemma serialize_items_ok B self items docs acc :
  api_client self = Some ApiClient →
  Forall2 (λ item d, sanitize_for_serialization B item = inr d) items docs →
  serialize_items B self items acc = mret (acc ++ docs).
Proof.
  intros Hc H. revert acc.
  induction H as [|item d items docs Hd _ IH]; intros acc; simpl.
  - by rewrite app_nil_r.
  - rewrite (sanitize_ok _ _ _ _ Hc Hd), bind_mret, IH. by rewrite <- app_assoc.
Qed.

(** One item that cannot be serialised stops the loop. *)
Lemma serialize_items_fail B self items acc item e :
  item ∈ items →
  sanitize_for_serialization B item = inl e →
  ∃ e', outcome (serialize_items B self items acc) = inl e'.
Proof.
  intros Hin He. revert acc.
  induction items as [|x rest IH]; intros acc; [by apply elem_of_nil in Hin|].
  simpl. rewrite bind_run.
  destruct (sanitize B self x) as [t [e0|d]] eqn:Hx; simpl; [eauto|].
  apply elem_of_cons in Hin as [->|Hin]; [|by apply IH].
  unfold sanitize, self_attr, lift in Hx.
  destruct (api_client self) as [[]|]; simpl in Hx; try discriminate Hx.
  rewrite He in Hx. discriminate Hx.
Qed.

Lemma get_resources_value B self resources kind namespace :
  _get_resource_mapping self = mret resources →
  ∃ l, outcome (get_resources B self kind namespace) = inr (PyList l).
Proof.
  intros Hm.
  pose proof (normalize_run _ _ Hm kind) as Hn.
  set (n := if _ && _ then _ else _) in Hn.
  pose proof (lookup_run _ _ Hm n _ (normalize_run _ _ Hm n)) as Hl.
  destruct (resources !! _) as [[api rt]|].
  - rewrite (get_resources_outcome _ _ _ _ _ _ _ Hn Hl), bind_run.
    destruct (dispatch_list B api n rt namespace) as [t [e|result]]; simpl; [eauto|].
    rewrite bind_run.
    destruct (py_items result) as [ti [e|items]]; simpl; [eauto|].
    rewrite bind_run.
    destruct (serialize_items B self items []) as [ts [e|docs]]; simpl; eauto.
  - rewrite (get_resources_unsupported _ _ _ _ _ Hn Hl). simpl. eauto.
Qed.

(** X5.  Once the registry is available [get_resources] never raises
    and its value is always a list, whatever the kind, the namespace
    and the behaviour of the backend. *)
Theorem get_resources_returns_list (B : Backend) (self : KubeClient)
  (resources : gmap string (ApiObject * string)) (kind : string)
  (namespace : option string) :
  _get_resource_mapping self = mret resources →
  ∃ l, outcome (get_resources B self kind namespace) = inr (PyList l).
Proof. intros Hm. by eapply get_resources_value. Qed.

Lemma get_resources_returns_list_witness :
  _get_resource_mapping Sample.connected
    = mret (resource_table CoreV1Api AppsV1Api NetworkingV1Api EventsV1Api) ∧
  ∃ l, outcome (get_resources Scenario.down Sample.connected "pods" (Some "team-a"))
       = inr (PyList l).
Proof.
  split; [reflexivity|].
  exact (get_resources_returns_list Scenario.down Sample.connected _ "pods"
           (Some "team-a") eq_refl).
Defined.

(** X6.  When the list call returns an object whose [items] is a list
    and every item serialises, [get_resources] returns the serialised
    items, one per item and in the order of the backend. *)
Theorem get_resources_serializes_in_order (B : Backend) (self : KubeClient)
  (kind : string) (namespace : option string) (n : string) (api : ApiObject)
  (rt : string) (t : list Event) (cls : string) (attrs : list (string * PyVal))
  (items docs : list PyVal) :
  _normalize_resource_kind self kind = mret n →
  _get_api_client_and_resource_type self n = mret (Some api, Some rt) →
  dispatch_list B api n rt namespace = (t, inr (PyModel cls attrs)) →
  lookup_attr "items" attrs = Some (PyList items) →
  api_client self = Some ApiClient →
  Forall2 (λ item d, sanitize_for_serialization B item = inr d) items docs →
  outcome (get_resources B self kind namespace) = inr (PyList docs) ∧
  List.length docs = List.length items.
Proof.
  intros Hn Hl Hd Hi Hc Hs.
  split; [|symmetry; by eapply Forall2_length].
  rewrite (get_resources_outcome _ _ _ _ _ _ _ Hn Hl).
  rewrite (outcome_bind_ok _ _ _ _ Hd), (py_items_model _ _ _ Hi), bind_mret.
  by rewrite (serialize_items_ok _ _ _ _ _ Hc Hs), bind_mret.
Qed.

Lemma get_resources_serializes_in_order_witness :
  _normalize_resource_kind Sample.connected "pods" = mret "pod" ∧
  _get_api_client_and_resource_type Sample.connected "pod"
    = mret (Some CoreV1Api, Some "pod") ∧
  outcome (get_resources Sample.backend Sample.connected "pods" (Some "team-b"))
    = inr (PyList [PyDict [("kind", PyStr "Pod"); ("name", PyStr "db-1");
                           ("namespace", PyStr "team-b")]]).
Proof.
  split; [reflexivity|]. split; [reflexivity|].
  refine (proj1 (get_resources_serializes_in_order Sample.backend Sample.connected
                   "pods" (Some "team-b") "pod" CoreV1Api "pod" _ "V1PodList" _
                   [Sample.pod "db-1" "team-b"] _ eq_refl eq_refl eq_refl eq_refl eq_refl _)).
  repeat constructor.
Defined.

(** X7.  All or nothing: when one item of the list cannot be
    serialised, [get_resources] returns the empty list and none of the
    other items. *)
Theorem get_resources_all_or_nothing (B : Backend) (self : KubeClient)
  (kind : string) (namespace : option string) (n : string) (api : ApiObject)
  (rt : string) (t : list Event) (cls : string) (attrs : list (string * PyVal))
  (items : list PyVal) (item : PyVal) (e : Exc) :
  _normalize_resource_kind self kind = mret n →
  _get_api_client_and_resource_type self n = mret (Some api, Some rt) →
  dispatch_list B api n rt namespace = (t, inr (PyModel cls attrs)) →
  lookup_attr "items" attrs = Some (PyList items) →
  item ∈ items →
  sanitize_for_serialization B item = inl e →
  outcome (get_resources B self kind namespace) = inr (PyList []).
Proof.
  intros Hn Hl Hd Hi Hin He.
  rewrite (get_resources_outcome _ _ _ _ _ _ _ Hn Hl).
  rewrite (outcome_bind_ok _ _ _ _ Hd), (py_items_model _ _ _ Hi), bind_mret, bind_run.
  destruct (serialize_items_fail B self items [] item e Hin He) as [e' He'].
  destruct (serialize_items B self items []) as [ts [e0|docs]]; simpl in *; [done|].
  discriminate He'.
Qed.

Lemma get_resources_all_or_nothing_witness :
  _normalize_resource_kind Sample.connected "pods" = mret "pod" ∧
  _get_api_client_and_resource_type Sample.connected "pod"
    = mret (Some CoreV1Api, Some "pod") ∧
  sanitize_for_serialization Scenario.brittle (Sample.pod "web-2" "team-a")
    = inl Scenario.not_serialisable ∧
  outcome (get_resources Scenario.brittle Sample.connected "pods" (Some "team-a"))
    = inr (PyList []).
Proof.
  split; [reflexivity|]. split; [reflexivity|]. split; [reflexivity|].
  refine (get_resources_all_or_nothing Scenario.brittle Sample.connected
            "pods" (Some "team-a") "pod" CoreV1Api "pod" _ "V1PodList" _
            [Sample.pod "web-1" "team-a"; Sample.pod "web-2" "team-a"]
            (Sample.pod "web-2" "team-a") Scenario.not_serialisable
            eq_refl eq_refl eq_refl eq_refl _ eq_refl).
  apply elem_of_cons; right. apply elem_of_cons; by left.
Defined.

Lemma dispatch_list_all_namespaces B api kind rt namespace g :
  kind = "namespace" ∨ truthy_opt namespace = false →
  methods B api ("list_" +:+ rt +:+ "_for_all_namespaces") = Some g →
  dispatch_list B api kind rt namespace =
  try_except_AttributeError
    (call api ("list_" +:+ rt +:+ "_for_all_namespaces") g [])
    (f ← getattr B api ("list_" +:+ rt); call api ("list_" +:+ rt) f []).
Proof.
  intros Hc Hg.
  assert (truthy_opt namespace && negb (String.eqb kind "namespace") = false) as Hb.
  { destruct Hc as [->| ->]; [by rewrite andb_false_r|done]. }
  unfold dispatch_list, getattr. by rewrite Hb, Hg, bind_mret.
Qed.

(** X8.  No retry: when the all-namespaces list raises anything but
    an [AttributeError], [get_resources] makes no other call and returns
    the empty list. *)
Theorem list_failure_is_not_retried (B : Backend) (self : KubeClient)
  (kind : string) (namespace : option string) (n : string) (api : ApiObject)
  (rt : string) (g : kwargs → Exc + PyVal) (e : Exc) :
  _normalize_resource_kind self kind = mret n →
  _get_api_client_and_resource_type self n = mret (Some api, Some rt) →
  n = "namespace" ∨ truthy_opt namespace = false →
  methods B api ("list_" +:+ rt +:+ "_for_all_namespaces") = Some g →
  g [] = inl e →
  is_AttributeError e = false →
  invocations (trace (get_resources B self kind namespace))
    = [(api, "list_" +:+ rt +:+ "_for_all_namespaces", [])] ∧
  outcome (get_resources B self kind namespace) = inr (PyList []).
Proof.
  intros Hn Hl Hc Hg He Ha.
  pose proof (dispatch_list_all_namespaces _ _ _ _ _ _ Hc Hg) as Hd.
  unfold try_except_AttributeError, call in Hd. rewrite He, Ha in Hd.
  split.
  - by rewrite (get_resources_invocations _ _ _ _ _ _ _ Hn Hl), Hd.
  - apply (get_resources_backend_failure _ _ _ _ _ _ _ e Hn Hl). by rewrite Hd.
Qed.

Lemma list_failure_is_not_retried_witness :
  _normalize_resource_kind Sample.connected "pods" = mret "pod" ∧
  _get_api_client_and_resource_type Sample.connected "pod"
    = mret (Some CoreV1Api, Some "pod") ∧
  is_AttributeError Scenario.unreachable = false ∧
  invocations (trace (get_resources Scenario.down Sample.connected "pods" None))
    = [(CoreV1Api, "list_pod_for_all_namespaces", [])] ∧
  outcome (get_resources Scenario.down Sample.connected "pods" None) = inr (PyList []).
Proof.
  split; [reflexivity|]. split; [reflexivity|]. split; [reflexivity|].
  exact (list_failure_is_not_retried Scenario.down Sample.connected "pods" None "pod"
           CoreV1Api "pod" (λ _, inl Scenario.unreachable) Scenario.unreachable
           eq_refl eq_refl (or_intror eq_refl) eq_refl eq_refl eq_refl).
Defined.



(** ** Describing *)

Lemma dispatch_read_namespaced B api kind rt name namespace :
  kind ≠ "namespace" →
  invocations (trace (dispatch_read B api kind rt name namespace))
  = match methods B api ("read_namespaced_" +:+ rt) with
    | Some _ => [(api, "read_namespaced_" +:+ rt,
                  [("name", PyStr name); ("namespace", PyStr namespace)])]
    | None => []
    end.
Proof.
  intros Hk. unfold dispatch_read, getattr.
  apply String.eqb_neq in Hk. rewrite Hk. simpl.
  by destruct (methods B api _).
Qed.

(** X10.  For every supported kind whose normal form is not
    "namespace" (the cluster-scoped "node" and "persistentvolume"
    included) the only backend method [describe_resource] invokes is
    [read_namespaced_<type>], with the name and the namespace as given. *)
Theorem describe_reads_namespaced (B : Backend) (self : KubeClient)
  (kind name namespace n : string) (api : ApiObject) (rt : string) :
  _normalize_resource_kind self kind = mret n →
  _get_api_client_and_resource_type self n = mret (Some api, Some rt) →
  n ≠ "namespace" →
  (is_Some (methods B api ("read_namespaced_" +:+ rt)) →
   invocations (trace (describe_resource B self kind name namespace))
   = [(api, "read_namespaced_" +:+ rt,
       [("name", PyStr name); ("namespace", PyStr namespace)])]) ∧
  (∀ i, i ∈ invocations (trace (describe_resource B self kind name namespace)) →
        i = (api, "read_namespaced_" +:+ rt,
             [("name", PyStr name); ("namespace", PyStr namespace)])).
Proof.
  intros Hn Hl Hk.
  rewrite (describe_resource_invocations _ _ _ _ _ _ _ _ Hn Hl).
  rewrite (dispatch_read_namespaced _ _ _ _ _ _ Hk). split.
  - by intros [f ->].
  - intros i. destruct (methods B api _); rewrite ?elem_of_cons, ?elem_of_nil; tauto.
Qed.

Lemma describe_reads_namespaced_witness :
  _normalize_resource_kind Sample.connected "Pod" = mret "pod" ∧
  _get_api_client_and_resource_type Sample.connected "pod"
    = mret (Some CoreV1Api, Some "pod") ∧
  "pod" ≠ "namespace" ∧
  is_Some (methods Sample.backend CoreV1Api "read_namespaced_pod") ∧
  invocations (trace (describe_resource Sample.backend Sample.connected "Pod" "web-1" "team-a"))
  = [(CoreV1Api, "read_namespaced_pod",
      [("name", PyStr "web-1"); ("namespace", PyStr "team-a")])].
Proof.
  assert ("pod" ≠ "namespace") as Hk by discriminate.
  assert (is_Some (methods Sample.backend CoreV1Api "read_namespaced_pod")) as Hm
    by (eexists; reflexivity).
  repeat (split; [first [reflexivity|assumption]|]).
  exact (proj1 (describe_reads_namespaced Sample.backend Sample.connected
                  "Pod" "web-1" "team-a" "pod" CoreV1Api "pod" eq_refl eq_refl Hk) Hm).
Defined.

(** X11.  For the kind "namespace" the namespace argument plays no
    part: two calls of [get_resources], and two calls of
    [describe_resource] for the same name, that differ only in it make
    the same backend calls and return the same value. *)
Theorem namespace_kind_ignores_namespace (B : Backend) (self : KubeClient)
  (kind : string) :
  _normalize_resource_kind self kind = mret "namespace" →
  (∀ ns1 ns2,
     invocations (trace (get_resources B self kind ns1))
       = invocations (trace (get_resources B self kind ns2)) ∧
     outcome (get_resources B self kind ns1) = outcome (get_resources B self kind ns2)) ∧
  (∀ name ns1 ns2,
     invocations (trace (describe_resource B self kind name ns1))
       = invocations (trace (describe_resource B self kind name ns2)) ∧
     outcome (describe_resource B self kind name ns1)
       = outcome (describe_resource B self kind name ns2)).
Proof.
  intros Hn.
  destruct (normalize_inv _ _ _ _ Hn) as [r Hm].
  destruct (mapping_inv _ _ _ Hm) as (_ & c & a & nw & ev & ->).
  assert (is_Some (resource_table c a nw ev !! "namespace")) as Hs by (eexists; reflexivity).
  pose proof (lookup_run _ _ Hm _ _ (normalize_key _ _ Hm _ Hs)) as Hl.
  change (resource_table c a nw ev !! "namespace") with (Some (c, "namespace")) in Hl.
  split.
  - intros ns1 ns2.
    rewrite !(get_resources_invocations _ _ _ _ _ _ _ Hn Hl).
    rewrite !(get_resources_outcome _ _ _ _ _ _ _ Hn Hl).
    assert (∀ ns, dispatch_list B c "namespace" "namespace" ns
                  = dispatch_list B c "namespace" "namespace" None) as Hd.
    { intros ns. unfold dispatch_list. simpl. by rewrite andb_false_r. }
    by rewrite (Hd ns1), (Hd ns2).
  - intros name ns1 ns2.
    rewrite !(describe_resource_invocations _ _ _ _ _ _ _ _ Hn Hl).
    rewrite !(describe_resource_supported _ _ _ _ _ _ _ _ Hn Hl), !print_bind_run.
    done.
Qed.

Lemma namespace_kind_ignores_namespace_witness :
  _normalize_resource_kind Sample.connected "Namespaces" = mret "namespace" ∧
  outcome (describe_resource Sample.backend Sample.connected "Namespaces" "kube-system" "default")
  = outcome (describe_resource Sample.backend Sample.connected "Namespaces" "kube-system" "team-a").
Proof.
  split; [reflexivity|].
  exact (proj2 (proj2 (namespace_kind_ignores_namespace Sample.backend Sample.connected
                         "Namespaces" eq_refl) "kube-system" "default" "team-a")).
Defined.

(** ** What the gateway calls *)

Lemma lookup_cases self n :
  (∃ e, _get_api_client_and_resource_type self n = raise e) ∨
  _get_api_client_and_resource_type self n = mret (None, None) ∨
  (∃ api rt, _get_api_client_and_resource_type self n = mret (Some api, Some rt)).
Proof.
  destruct (mapping_cases self) as [[r Hm]|[e He]].
  - rewrite (lookup_run _ _ Hm _ _ (normalize_run _ _ Hm n)).
    destruct (r !! _) as [[api rt]|]; eauto.
  - left. exists e.
    unfold _get_api_client_and_resource_type, _normalize_resource_kind.
    by rewrite He.
Qed.

Lemma normalize_cases self kind :
  (∃ e, _normalize_resource_kind self kind = raise e) ∨
  (∃ n, _normalize_resource_kind self kind = mret n).
Proof.
  destruct (mapping_cases self) as [[r Hm]|[e He]].
  - right. eexists. by apply (normalize_run _ _ Hm).
  - left. exists e. unfold _normalize_resource_kind. by rewrite He.
Qed.

Ltac prefix_holds :=
  simpl;
  first [reflexivity
        |match goal with |- String.prefix _ ?s = true => by destruct s end].

Ltac count_calls :=
  split; [repeat (apply Forall_cons_2; [prefix_holds|]); apply Forall_nil_2
         |simpl; lia].

Lemma dispatch_list_calls B api kind rt namespace :
  Forall (λ i, String.prefix "list_" i.1.2 = true)
    (invocations (trace (dispatch_list B api kind rt namespace))) ∧
  (List.length (invocations (trace (dispatch_list B api kind rt namespace))) ≤ 2)%nat.
Proof.
  unfold dispatch_list, try_except_AttributeError, getattr.
  destruct (_ && _).
  - destruct (methods B api _) as [f|]; simpl; count_calls.
  - destruct (methods B api ("list_" +:+ rt +:+ "_for_all_namespaces")) as [g|]; simpl;
      [destruct (g []) as [e|v]; simpl; [destruct (is_AttributeError e)|]|];
      destruct (methods B api ("list_" +:+ rt)) as [f|]; simpl;
      count_calls.
Qed.

Lemma dispatch_read_calls B api kind rt name namespace :
  Forall (λ i, String.prefix "read_" i.1.2 = true)
    (invocations (trace (dispatch_read B api kind rt name namespace))) ∧
  (List.length (invocations (trace (dispatch_read B api kind rt name namespace))) ≤ 1)%nat.
Proof.
  unfold dispatch_read, getattr.
  destruct (negb _); destruct (methods B api _) as [f|]; simpl; count_calls.
Qed.

(** X12.  The gateway only reads, and makes no retry: on every client
    and backend, [get_resources] invokes nothing but [list_...] methods
    and at most two of them, and [describe_resource] nothing but a
    [read_...] method and at most one. *)
Theorem gateway_only_lists_and_reads (B : Backend) (self : KubeClient)
  (kind name namespace : string) (scope : option string) :
  (Forall (λ i, String.prefix "list_" i.1.2 = true)
     (invocations (trace (get_resources B self kind scope))) ∧
   (List.length (invocations (trace (get_resources B self kind scope))) ≤ 2)%nat) ∧
  (Forall (λ i, String.prefix "read_" i.1.2 = true)
     (invocations (trace (describe_resource B self kind name namespace))) ∧
   (List.length (invocations (trace (describe_resource B self kind name namespace))) ≤ 1)%nat).
Proof.
  destruct (normalize_cases self kind) as [[e Hn]|[n Hn]].
  { unfold get_resources, describe_resource. rewrite Hn, !bind_raise. simpl.
    split; count_calls. }
  destruct (lookup_cases self n) as [[e Hl]|[Hl|(api & rt & Hl)]].
  - unfold get_resources, describe_resource. rewrite Hn, !bind_mret, Hl, !bind_raise.
    simpl. split; count_calls.
  - rewrite (get_resources_unsupported _ _ _ _ _ Hn Hl).
    rewrite (describe_resource_unsupported _ _ _ _ _ _ Hn Hl).
    simpl. split; count_calls.
  - rewrite (get_resources_invocations _ _ _ _ _ _ _ Hn Hl).
    rewrite (describe_resource_invocations _ _ _ _ _ _ _ _ Hn Hl).
    split; [apply dispatch_list_calls|apply dispatch_read_calls].
Qed.

(** ** Pod logs *)

(** X13.  [get_pod_logs] never raises, on any client and backend, and
    when the log call returns it hands the value on as it is, with
    nothing printed. *)
Theorem get_pod_logs_total (B : Backend) (self : KubeClient) (pod_name : string)
  (container : option string) (namespace : string) (tail_lines : Z) :
  (∃ v, outcome (get_pod_logs B self pod_name container namespace tail_lines) = inr v) ∧
  (∀ t v, read_pod_log B self pod_name container namespace tail_lines = (t, inr v) →
          get_pod_logs B self pod_name container namespace tail_lines = (t, inr v)).
Proof.
  unfold get_pod_logs. rewrite try_except_run, bind_run.
  destruct (read_pod_log _ _ _ _ _ _) as [t [e|v]]; simpl.
  - split; [eauto|]. intros ? ? [=].
  - rewrite app_nil_r. split; [eauto|]. by intros ? ? [= -> ->].
Qed.

Lemma get_pod_logs_total_witness :
  read_pod_log Sample.backend Sample.connected "web-1" (Some "app") "team-a" 10
  = ([Invoke CoreV1Api "read_namespaced_pod_log"
        [("name", PyStr "web-1"); ("namespace", PyStr "team-a");
         ("container", PyStr "app"); ("pretty", PyBool true); ("tail_lines", PyInt 10)]],
     inr (PyStr "started")) ∧
  get_pod_logs Sample.backend Sample.connected "web-1" (Some "app") "team-a" 10
  = ([Invoke CoreV1Api "read_namespaced_pod_log"
        [("name", PyStr "web-1"); ("namespace", PyStr "team-a");
         ("container", PyStr "app"); ("pretty", PyBool true); ("tail_lines", PyInt 10)]],
     inr (PyStr "started")).
Proof.
  split; [reflexivity|].
  exact (proj2 (get_pod_logs_total Sample.backend Sample.connected "web-1" (Some "app")
                  "team-a" 10) _ _ eq_refl).
Defined.

(** ** Resource types *)

Lemma resource_kinds_ok resources kinds acc :
  Forall2 (λ resource kind, py_attr resource "kind" = mret kind) resources kinds →
  resource_kinds resources acc = mret (acc ++ kinds).
Proof.
  intros H. revert acc.
  induction H as [|r k rs ks Hk _ IH]; intros acc; simpl.
  - by rewrite app_nil_r.
  - rewrite Hk, bind_mret, IH. by rewrite <- app_assoc.
Qed.

Lemma resource_kinds_trace resources acc : trace (resource_kinds resources acc) = [].
Proof.
  revert acc. induction resources as [|r rs IH]; intros acc; [done|].
  simpl. rewrite bind_run.
  destruct r as [| | | | | |cls attrs]; try done.
  simpl. destruct (lookup_attr "kind" attrs); simpl; [by rewrite IH|done].
Qed.

Lemma outcome_bind_inv {A B : Type} (m : Py A) (f : A → Py B) v :
  outcome (m ≫= f) = inr v → ∃ t a, m = (t, inr a) ∧ outcome (f a) = inr v.
Proof.
  rewrite bind_run. destruct m as [t [e|a]]; simpl; [done|eauto].
Qed.

(** X14.  [get_resource_types] never raises and always returns a list,
    on every client and backend; without [core_v1_api] (a start that
    failed) it calls nothing and returns the empty list. *)
Theorem get_resource_types_soft_fails (B : Backend) (self : KubeClient) :
  (∃ l, outcome (get_resource_types B self) = inr (PyList l)) ∧
  (core_v1_api self = None →
   invocations (trace (get_resource_types B self)) = [] ∧
   outcome (get_resource_types B self) = inr (PyList [])).
Proof.
  unfold get_resource_types. rewrite try_except_run. split.
  - destruct (_ ≫= _) as [t [e|v]] eqn:Hb; simpl; [eauto|].
    apply (f_equal outcome) in Hb.
    change (outcome (t, inr v)) with (@inr Exc PyVal v) in Hb.
    repeat (apply outcome_bind_inv in Hb as (? & ? & _ & Hb)).
    unfold mret, Py_ret in Hb. simpl in Hb. injection Hb as <-. eauto.
  - intros Hc. unfold self_attr. by rewrite Hc.
Qed.

Lemma get_resource_types_soft_fails_witness :
  core_v1_api fresh = None ∧
  invocations (trace (get_resource_types Scenario.discovery fresh)) = [] ∧
  outcome (get_resource_types Scenario.discovery fresh) = inr (PyList []).
Proof.
  split; [reflexivity|].
  exact (proj2 (get_resource_types_soft_fails Scenario.discovery fresh) eq_refl).
Defined.

(** X15.  When discovery returns an object whose [resources] is a list
    of objects with a [kind], [get_resource_types] returns those kinds,
    one per resource and in the order of the backend, after one call of
    [get_api_resources] without arguments. *)
Theorem get_resource_types_lists_kinds (B : Backend) (self : KubeClient)
  (core : ApiObject) (f : kwargs → Exc + PyVal) (cls : string)
  (attrs : list (string * PyVal)) (resources kinds : list PyVal) :
  core_v1_api self = Some core →
  methods B core "get_api_resources" = Some f →
  f [] = inr (PyModel cls attrs) →
  lookup_attr "resources" attrs = Some (PyList resources) →
  Forall2 (λ resource kind, py_attr resource "kind" = mret kind) resources kinds →
  get_resource_types B self
  = ([Invoke core "get_api_resources" []], inr (PyList kinds)) ∧
  List.length kinds = List.length resources.
Proof.
  intros Hc Hf Hr Ha Hk.
  split; [|symmetry; by eapply Forall2_length].
  assert (py_attr (PyModel cls attrs) "resources" = mret (PyList resources)) as Hp.
  { unfold py_attr. by rewrite Ha. }
  unfold get_resource_types, self_attr, getattr.
  rewrite Hc, bind_mret, Hf, bind_mret, try_except_run, bind_run.
  unfold call. rewrite Hr. cbv beta iota.
  rewrite Hp, bind_mret.
  change (py_iter (PyList resources)) with (mret resources : Py (list PyVal)).
  by rewrite bind_mret, (resource_kinds_ok _ _ _ Hk), bind_mret.
Qed.

Lemma get_resource_types_lists_kinds_witness :
  core_v1_api Sample.connected = Some CoreV1Api ∧
  get_resource_types Scenario.discovery Sample.connected
  = ([Invoke CoreV1Api "get_api_resources" []], inr (PyList [PyStr "Pod"; PyStr "Node"])).
Proof.
  split; [reflexivity|].
  refine (proj1 (get_resource_types_lists_kinds Scenario.discovery Sample.connected
                   CoreV1Api (λ _, inr Scenario.api_resources) "V1APIResourceList" _ _ _
                   eq_refl eq_refl eq_refl eq_refl _)).
  repeat constructor.
Defined.

(** ** The tools *)

(** X16.  The tool [get_resources] never hands out an empty list: once
    the registry is available it returns either the non-empty list of
    the client or, when the client returned nothing (no resource, an
    unsupported kind or a failure alike), the sentence
    "No <kind> resources found", with the kind as the caller wrote it,
    followed by " in namespace <namespace>" when a namespace was given. *)
Theorem tool_get_resources_never_empty (B : Backend) (self : KubeClient)
  (resources : gmap string (ApiObject * string)) (kind namespace : string) :
  _get_resource_mapping self = mret resources →
  ∃ v, outcome (Main.get_resources B self kind namespace) = inr v ∧
       v ≠ PyList [] ∧
       (outcome (get_resources B self kind (Some namespace)) = inr (PyList []) →
        v = PyStr ("No " +:+ kind +:+ " resources found" +:+
                   (if truthy namespace then " in namespace " +:+ namespace else ""))) ∧
       (∀ x l, outcome (get_resources B self kind (Some namespace)) = inr (PyList (x :: l)) →
               v = PyList (x :: l)).
Proof.
  intros Hm.
  destruct (get_resources_value B self _ kind (Some namespace) Hm) as [l Hl].
  unfold Main.get_resources. rewrite bind_run.
  destruct (get_resources B self kind (Some namespace)) as [t [e|r]];
    simpl in Hl; [discriminate Hl|].
  injection Hl as ->. destruct l as [|x l]; simpl.
  - eexists. split; [done|]. split; [discriminate|]. split; [done|]. intros ? ? [=].
  - eexists. split; [done|]. split; [discriminate|]. split; [intros [=]|]. by intros ? ? [= -> ->].
Qed.

Lemma tool_get_resources_never_empty_witness :
  _get_resource_mapping Sample.connected
    = mret (resource_table CoreV1Api AppsV1Api NetworkingV1Api EventsV1Api) ∧
  outcome (get_resources Sample.backend Sample.connected "Frobnicators" (Some "team-a"))
    = inr (PyList []) ∧
  outcome (Main.get_resources Sample.backend Sample.connected "Frobnicators" "team-a")
    = inr (PyStr "No Frobnicators resources found in namespace team-a").
Proof.
  split; [reflexivity|]. split; [reflexivity|].
  destruct (tool_get_resources_never_empty Sample.backend Sample.connected _
              "Frobnicators" "team-a" eq_refl) as (v & Hv & _ & Hempty & _).
  rewrite Hv. f_equal. exact (Hempty eq_refl).
Defined.

Lemma join_items_ok i items strs :
  Forall2 (λ v s, v = PyStr s) items strs → join_items i items = inr strs.
Proof.
  intros H. revert i.
  induction H as [|v s items strs -> _ IH]; intros i; simpl; [done|].
  by rewrite IH.
Qed.

(** X17.  The tool [resource_types] answers "Resource types: "
    followed by the kinds the client returned, separated by ", "; when
    the client returned nothing (no resource, or a failure that it
    swallowed) the answer is "Resource types: " alone. *)
Theorem tool_resource_types_joins (B : Backend) (self : KubeClient)
  (kinds : list PyVal) (strs : list string) :
  outcome (get_resource_types B self) = inr (PyList kinds) →
  Forall2 (λ v s, v = PyStr s) kinds strs →
  outcome (Main.get_resource_kinds B self)
  = inr (PyStr ("Resource types: " +:+ String.concat ", " strs)).
Proof.
  intros Hk Hs.
  destruct (get_resource_types B self) as [t [e|r]] eqn:Hg; simpl in Hk; [discriminate Hk|].
  injection Hk as ->.
  unfold Main.get_resource_kinds. rewrite (outcome_bind_ok _ _ _ _ Hg).
  unfold py_join, lift.
  change (py_iter (PyList kinds)) with (mret kinds : Py (list PyVal)).
  rewrite bind_mret, (join_items_ok _ _ _ Hs).
  change (([], inr strs) : Py (list string)) with (mret strs : Py (list string)).
  by rewrite !bind_mret.
Qed.

Lemma tool_resource_types_joins_witness :
  outcome (get_resource_types Scenario.discovery Sample.connected)
    = inr (PyList [PyStr "Pod"; PyStr "Node"]) ∧
  outcome (Main.get_resource_kinds Scenario.discovery Sample.connected)
    = inr (PyStr "Resource types: Pod, Node") ∧
  outcome (Main.get_resource_kinds Scenario.discovery fresh)
    = inr (PyStr "Resource types: ").
Proof.
  split; [reflexivity|]. split.
  - refine (tool_resource_types_joins Scenario.discovery Sample.connected
              [PyStr "Pod"; PyStr "Node"] ["Pod"; "Node"] eq_refl _).
    repeat constructor.
  - refine (tool_resource_types_joins Scenario.discovery fresh [] [] eq_refl _).
    constructor.
Defined.

Lemma get_pod_logs_invocation B self pod_name container namespace tail_lines core :
  core_v1_api self = Some core →
  is_Some (methods B core "read_namespaced_pod_log") →
  invocations (trace (get_pod_logs B self pod_name container namespace tail_lines))
  = [(core, "read_namespaced_pod_log",
      [("name", PyStr pod_name);
       ("namespace", PyStr namespace);
       ("container", py_opt container);
       ("pretty", PyBool true);
       ("tail_lines", PyInt tail_lines)])].
Proof.
  intros Hc [f Hf]. unfold get_pod_logs, read_pod_log, self_attr, getattr.
  rewrite Hc, bind_mret, Hf, bind_mret.
  rewrite try_except_run, bind_run. simpl.
  destruct (f _) as [e|v]; simpl; by rewrite ?app_nil_r.
Qed.

(** X18.  The tool [get_pod_logs] cannot choose a container and does
    not check the tail limit: whatever the pod, the namespace and the
    number of lines (zero and negative numbers included), the one call
    it makes has [container=None], [pretty=True] and the namespace and
    the number of lines as given. *)
Theorem tool_get_pod_logs_call (B : Backend) (self : KubeClient)
  (pod_name namespace : string) (tail_lines : Z) (core : ApiObject) :
  core_v1_api self = Some core →
  is_Some (methods B core "read_namespaced_pod_log") →
  invocations (trace (Main.get_pod_logs B self pod_name namespace tail_lines))
  = [(core, "read_namespaced_pod_log",
      [("name", PyStr pod_name);
       ("namespace", PyStr namespace);
       ("container", PyNone);
       ("pretty", PyBool true);
       ("tail_lines", PyInt tail_lines)])].
Proof.
  intros Hc Hm. unfold Main.get_pod_logs.
  by rewrite (get_pod_logs_invocation _ _ _ _ _ _ _ Hc Hm).
Qed.

Lemma tool_get_pod_logs_call_witness :
  core_v1_api Sample.connected = Some CoreV1Api ∧
  is_Some (methods Sample.backend CoreV1Api "read_namespaced_pod_log") ∧
  invocations (trace (Main.get_pod_logs Sample.backend Sample.connected "web-1" "team-a" (-5)))
  = [(CoreV1Api, "read_namespaced_pod_log",
      [("name", PyStr "web-1");
       ("namespace", PyStr "team-a");
       ("container", PyNone);
       ("pretty", PyBool true);
       ("tail_lines", PyInt (-5))])].
Proof.
  assert (is_Some (methods Sample.backend CoreV1Api "read_namespaced_pod_log")) as Hm
    by (eexists; reflexivity).
  split; [reflexivity|]. split; [assumption|].
  exact (tool_get_pod_logs_call Sample.backend Sample.connected "web-1" "team-a" (-5)
           CoreV1Api eq_refl Hm).
Defined.
